(** * azure_mriqc_server: the [/run-mriqc] request handler

    A shallow embedding of [src/azure_mriqc_server.py].  The handler is
    sequential glue around three collaborators (the HTTP framework, the
    filesystem and a container runtime), so the embedding is a small
    state-and-error monad over a directory tree that also records every
    effect the handler performs.  The zip codec, the modification times
    the operating system keeps for the files, and the process launched by
    [subprocess.run] are the section's variables: nothing is assumed
    about them except where a theorem says so. *)

From Stdlib Require Import ZArith Strings.Ascii Strings.String Strings.Byte.
From stdpp Require Import gmap strings list fin_maps.

Open Scope string_scope.
Open Scope list_scope.

(** ** Strings and paths *)

Definition bytes := list byte.

(** Path components of a POSIX path string: split at ['/'], empty
    components dropped.  [acc] is the component being read.  The paths of
    this program have no ["."] and no [".."]. *)
Fixpoint split_slash (acc : string) (s : string) : list string :=
  match s with
  | EmptyString => if decide (acc = "") then [] else [acc]
  | String c s' =>
      if decide (c = "/"%char)
      then (if decide (acc = "") then [] else [acc]) ++ split_slash "" s'
      else split_slash (acc +:+ String c EmptyString) s'
  end.

(** [pathlib.Path] of an absolute path: its components below the root. *)
Definition path := list string.

Definition Path (s : string) : path := split_slash "" s.

(** [str(p)] of an absolute [pathlib.Path]. *)
Definition path_str (p : path) : string :=
  match p with
  | [] => "/"
  | _ => fold_right (fun c r => "/" +:+ c +:+ r) "" p
  end.

(** [os.path.join(a, b)] for a relative [b] and [a] without a trailing
    slash. *)
Definition os_path_join (a b : string) : string := a +:+ "/" +:+ b.

(** [p / name], the child of a [pathlib.Path]. *)
Definition path_child (p : path) (name : string) : path := p ++ [name].

(** [str.startswith] as a boolean. *)
Fixpoint starts_with (pre s : string) : bool :=
  match pre, s with
  | EmptyString, _ => true
  | String a pre', String b s' => if decide (a = b) then starts_with pre' s' else false
  | String _ _, EmptyString => false
  end.

(** [s.replace(old, new)] for a non-empty [old]: every non-overlapping
    occurrence, left to right.  [skip] counts the characters of a matched
    occurrence that are still to be dropped. *)
Fixpoint replace_from (old new : string) (skip : nat) (s : string) : string :=
  match s with
  | EmptyString => EmptyString
  | String c s' =>
      match skip with
      | S k => replace_from old new k s'
      | O =>
          if starts_with old s
          then new +:+ replace_from old new (String.length old - 1) s'
          else String c (replace_from old new 0 s')
      end
  end.

Definition str_replace (s old new : string) : string := replace_from old new 0 s.

(** ** The filesystem: a directory tree

    A directory maps names to nodes: the tree holds names and bytes.
    What the operating system keeps besides (modification times) is not
    in the tree; the one call that reads it, [shutil.make_archive], gets
    it as [st_mtime] below.  Directory enumeration is [map_to_list], one
    order among those a filesystem can give: where the order matters, the
    statements below say which entries there are instead of relying on
    it. *)

#[warnings="-register-all"]
Inductive node :=
| File (data : bytes)
| Dir (entries : gmap string node).

Definition is_Dir (n : node) : bool :=
  match n with Dir _ => true | File _ => false end.

Fixpoint fs_lookup (p : path) (n : node) : option node :=
  match p with
  | [] => Some n
  | c :: p' =>
      match n with
      | Dir es => match es !! c with
                  | Some k => fs_lookup p' k
                  | None => None
                  end
      | File _ => None
      end
  end.

(** Replace what is at [p] by [new], when the parent of [p] is a
    directory; anything else leaves the tree as it is. *)
Fixpoint fs_put (p : path) (new : node) (n : node) : node :=
  match p with
  | [] => new
  | c :: p' =>
      match n with
      | Dir es =>
          match p' with
          | [] => Dir (<[c := new]> es)
          | _ => match es !! c with
                 | Some k => Dir (<[c := fs_put p' new k]> es)
                 | None => n
                 end
          end
      | File _ => n
      end
  end.

(** [p.is_dir()] as a test on the tree. *)
Definition dir_at (fs : node) (p : path) : bool :=
  match fs_lookup p fs with
  | Some (Dir _) => true
  | _ => false
  end.

(** Python's exceptions that the modelled calls can raise. *)
Inductive exn :=
| FileNotFoundError
| FileExistsError
| NotADirectoryError
| IsADirectoryError
| BadZipFile
| ValueError
| OtherError (type_name : string).

(** [shutil.rmtree(p, ignore_errors=True)]: a directory at [p] is removed
    with all it holds; a missing path, a regular file at [p] or a file on
    the way to it are errors, and errors are ignored. *)
Fixpoint rmtree_node (p : path) (n : node) : node :=
  match p, n with
  | [], _ => n
  | [c], Dir es =>
      match es !! c with
      | Some (Dir _) => Dir (delete c es)
      | _ => n
      end
  | c :: p', Dir es =>
      match es !! c with
      | Some k => Dir (<[c := rmtree_node p' k]> es)
      | None => n
      end
  | _ :: _, File _ => n
  end.

(** [os.makedirs(p, exist_ok=True)]: missing directories are created top
    down; an existing directory is kept with its contents; a regular file
    at [p] raises [FileExistsError], one on the way raises
    [NotADirectoryError].  A failing call creates nothing. *)
Fixpoint makedirs_node (p : path) (n : node) : exn + node :=
  match p with
  | [] => match n with
          | Dir _ => inr n
          | File _ => inl FileExistsError
          end
  | c :: p' =>
      match n with
      | File _ => inl NotADirectoryError
      | Dir es =>
          match makedirs_node p' (default (Dir ∅) (es !! c)) with
          | inr k => inr (Dir (<[c := k]> es))
          | inl e => inl e
          end
      end
  end.

(** [open(p, "wb")] followed by a write of [data]: the parent must be a
    directory and [p] must not be one. *)
Fixpoint write_node (p : path) (data : bytes) (n : node) : exn + node :=
  match p, n with
  | [], _ => inl IsADirectoryError
  | _ :: _, File _ => inl NotADirectoryError
  | [c], Dir es =>
      match es !! c with
      | Some (Dir _) => inl IsADirectoryError
      | _ => inr (Dir (<[c := File data]> es))
      end
  | c :: p', Dir es =>
      match es !! c with
      | Some k =>
          match write_node p' data k with
          | inr k' => inr (Dir (<[c := k']> es))
          | inl e => inl e
          end
      | None => inl FileNotFoundError
      end
  end.

(** [open(p, "rb").read()]. *)
Definition read_node (p : path) (n : node) : exn + bytes :=
  match fs_lookup p n with
  | Some (File d) => inr d
  | Some (Dir _) => inl IsADirectoryError
  | None => inl FileNotFoundError
  end.

(** ** Effects

    The handler runs in a monad that threads the filesystem, may raise a
    Python exception, and logs every completed effect together with the
    filesystem it left behind. *)

Record CompletedProcess := {
  returncode : Z;
  stdout : string;
  stderr : string
}.

Inductive event :=
| EvRmtree (p : string)
| EvMakedirs (p : string)
| EvSave (dst : string) (data : bytes)
| EvExtractall (zip_path target : string)
| EvRun (args : list string) (shell : bool) (result : CompletedProcess)
| EvMakeArchive (base_name format root_dir : string).

Definition trace := list (event * node).

Definition io (A : Type) : Type := node -> (exn + A) * node * trace.

Definition ret {A} (a : A) : io A := fun fs => (inr a, fs, []).

Definition raise {A} (e : exn) : io A := fun fs => (inl e, fs, []).

Definition bind {A B} (m : io A) (k : A -> io B) : io B :=
  fun fs =>
    match m fs with
    | (inr a, fs1, t1) =>
        match k a fs1 with
        | (r, fs2, t2) => (r, fs2, t1 ++ t2)
        end
    | (inl e, fs1, t1) => (inl e, fs1, t1)
    end.

Notation "x <- m ;; k" := (bind m (fun x => k))
  (at level 100, m at next level, right associativity).
Notation "m ;; k" := (bind m (fun _ => k))
  (at level 100, right associativity).

(** An effect that changes the filesystem and is logged as [ev]. *)
Definition effect (ev : event) (step : node -> exn + node) : io unit :=
  fun fs =>
    match step fs with
    | inr fs' => (inr tt, fs', [(ev, fs')])
    | inl e => (inl e, fs, [])
    end.

(** ** The HTTP request and response *)

(** werkzeug's [FileStorage]: an uploaded part and its client file name. *)
Record FileStorage := {
  filename : string;
  stream : bytes
}.

(** [bool(f)] of a [FileStorage] is [bool(f.filename)]. *)
Definition FileStorage_bool (f : FileStorage) : bool :=
  if decide (filename f = "") then false else true.

(** [request.files] and [request.form] are multi-dicts: [get] gives the
    first value stored under the key. *)
Record request := {
  files : list (string * FileStorage);
  form : list (string * string)
}.

Fixpoint multidict_get {V} (d : list (string * V)) (key : string) : option V :=
  match d with
  | [] => None
  | (k, v) :: d' => if decide (k = key) then Some v else multidict_get d' key
  end.

Inductive body :=
| Json (obj : list (string * string))
| Attachment (download_name : string) (data : bytes).

Record response := {
  status : Z;
  payload : body
}.

(** [return jsonify(obj), code]. *)
Definition jsonify (obj : list (string * string)) (code : Z) : response :=
  {| status := code; payload := Json obj |}.

(** ** The module's constants *)

Definition UPLOAD_FOLDER : string := "/tmp/mriqc_upload".
Definition OUTPUT_FOLDER : string := "/tmp/mriqc_output".

Section Handler.

(** *** The collaborators *)

(** [zipfile.ZipFile(...).extractall(d)]: from the archive's bytes and
    the entries of [d] to the entries of [d] afterwards.  Members are
    extracted one by one, so a failing call ([inl]) gives the exception
    and the entries of [d] as the members extracted before it left
    them. *)
Variable zip_extractall :
  bytes -> gmap string node -> exn * gmap string node + gmap string node.

(** The zip writer behind [shutil.make_archive]: the archive for the
    members of a directory, given by their names and bytes in the tree
    and by the modification time the writer reads for each
    ([ZipInfo.from_file]), by the member's path below the directory. *)
Variable zip_pack : (path -> Z) -> gmap string node -> bytes.

(** [os.stat(p).st_mtime] of the members of the output workspace when
    [shutil.make_archive] reads them, by their paths below it. *)
Variable st_mtime : path -> Z.

(** The operating system running an argument vector to completion on
    the filesystem: the exit status and captured streams, and the
    filesystem the process leaves; [inl] when it cannot be started. *)
Variable exec : list string -> node -> exn + (CompletedProcess * node).

(** *** Library calls *)

(** [shutil.rmtree(p, ignore_errors=True)] *)
Definition shutil_rmtree (p : string) : io unit :=
  effect (EvRmtree p) (fun fs => inr (rmtree_node (Path p) fs)).

(** [os.makedirs(p, exist_ok=True)] *)
Definition os_makedirs (p : string) : io unit :=
  effect (EvMakedirs p) (makedirs_node (Path p)).

(** [f.save(dst)] *)
Definition FileStorage_save (f : FileStorage) (dst : string) : io unit :=
  effect (EvSave dst (stream f)) (write_node (Path dst) (stream f)).

(** [with zipfile.ZipFile(zip_path, 'r') as zf: zf.extractall(target)],
    for a [target] that is a directory: the filesystem afterwards, or the
    exception with the filesystem the failing call left. *)
Definition extractall_node (zip_path target : path) (fs : node)
    : exn * node + node :=
  match read_node zip_path fs with
  | inl e => inl (e, fs)
  | inr data =>
      match fs_lookup target fs with
      | Some (Dir es) =>
          match zip_extractall data es with
          | inr es' => inr (fs_put target (Dir es') fs)
          | inl (e, part) => inl (e, fs_put target (Dir part) fs)
          end
      | Some (File _) => inl (NotADirectoryError, fs)
      | None => inl (FileNotFoundError, fs)
      end
  end.

Definition ZipFile_extractall (zip_path target : string) : io unit :=
  fun fs =>
    match extractall_node (Path zip_path) (Path target) fs with
    | inr fs' => (inr tt, fs', [(EvExtractall zip_path target, fs')])
    | inl (e, fs') => (inl e, fs', [])
    end.

(** [p.iterdir()]: the children of a directory, in enumeration order. *)
Definition Path_iterdir (p : path) : io (list path) :=
  fun fs =>
    match fs_lookup p fs with
    | Some (Dir es) => ret (path_child p <$> (map_to_list es).*1) fs
    | Some (File _) => raise NotADirectoryError fs
    | None => raise FileNotFoundError fs
    end.

(** [p.is_dir()] *)
Definition Path_is_dir (p : path) : io bool :=
  fun fs => ret (dir_at fs p) fs.

(** [subprocess.run(cmd, capture_output=True, text=True)]: an argument
    vector, no shell. *)
Definition subprocess_run (cmd : list string) : io CompletedProcess :=
  fun fs =>
    match exec cmd fs with
    | inr (result, fs') => (inr result, fs', [(EvRun cmd false result, fs')])
    | inl e => raise e fs
    end.

(** What [os.walk(p)] finds below [p]: the entries of a directory, and
    nothing where [p] is missing or no directory (the error of the
    listing is dropped). *)
Definition walk (p : path) (fs : node) : gmap string node :=
  match fs_lookup p fs with
  | Some (Dir es) => es
  | _ => ∅
  end.

(** [os.path.exists(p)] *)
Definition path_exists (p : path) (fs : node) : bool :=
  match fs_lookup p fs with
  | Some _ => true
  | None => false
  end.

(** [shutil.make_archive(base_name, "zip", root_dir)], as CPython 3.11
    has it ([shutil._make_zipfile]): the directory of the archive is made
    when it is missing, then what [os.walk] finds below [root_dir] is
    packed, each member with its modification time, into
    [base_name + ".zip"].  [root_dir] itself is not checked: where it is
    missing or no directory the archive is written with no member.
    [name] is the path of the archive; no other format is modelled. *)
Definition make_archive_node (name : path) (format : string) (root_dir : path)
    (fs : node) : exn + node :=
  if decide (format = "zip") then
    let archive_dir := removelast name in
    match (if path_exists archive_dir fs then inr fs
           else makedirs_node archive_dir fs) with
    | inr fs1 => write_node name (zip_pack st_mtime (walk root_dir fs1)) fs1
    | inl e => inl e
    end
  else inl ValueError.

Definition shutil_make_archive (base_name format root_dir : string) : io string :=
  let name := base_name +:+ "." +:+ format in
  effect (EvMakeArchive base_name format root_dir)
         (make_archive_node (Path name) format (Path root_dir)) ;;
  ret name.

(** [send_file(p, as_attachment=True)]: status 200, the file's bytes,
    offered for download under the file's own name. *)
Definition send_file (p : string) : io response :=
  fun fs =>
    match read_node (Path p) fs with
    | inr data =>
        ret {| status := 200;
               payload := Attachment (default "" (last (Path p))) data |} fs
    | inl e => raise e fs
    end.

(** Lines 28 and 29, run once when the module is imported. *)
Definition module_init : io unit :=
  os_makedirs UPLOAD_FOLDER ;;
  os_makedirs OUTPUT_FOLDER.

(** *** The handler *)

(** The loop of step 5: the first item that is a directory. *)
Fixpoint first_dir (items : list path) : io (option path) :=
  match items with
  | [] => ret None
  | item :: rest =>
      d <- Path_is_dir item ;;
      if d then ret (Some item) else first_dir rest
  end.

Definition run_mriqc (req : request) : io response :=
  (* 1) Parse incoming form data *)
  let bids_zip := multidict_get (files req) "bids_zip" in
  let subj_id := default "01" (multidict_get (form req) "participant_label") in
  match bids_zip with
  | None => ret (jsonify [("error", "No BIDS zip provided")] 400)
  | Some upload =>
      if negb (FileStorage_bool upload)
      then ret (jsonify [("error", "No BIDS zip provided")] 400)
      else
        (* 2) Clean up old data *)
        shutil_rmtree UPLOAD_FOLDER ;;
        shutil_rmtree OUTPUT_FOLDER ;;
        os_makedirs UPLOAD_FOLDER ;;
        os_makedirs OUTPUT_FOLDER ;;
        (* 3) Save the uploaded zip *)
        let zip_path := os_path_join UPLOAD_FOLDER "bids_data.zip" in
        FileStorage_save upload zip_path ;;
        (* 4) Unzip BIDS data *)
        ZipFile_extractall zip_path UPLOAD_FOLDER ;;
        (* 5) Find the first directory in UPLOAD_FOLDER *)
        items <- Path_iterdir (Path UPLOAD_FOLDER) ;;
        found <- first_dir items ;;
        match found with
        | None =>
            ret (jsonify [("error", "No BIDS directory found after unzipping.")] 400)
        | Some bids_root =>
            (* 6) Run MRIQC in Docker *)
            let cmd :=
              ["docker"; "run"; "--rm";
               "-v"; path_str bids_root +:+ ":/data:ro";
               "-v"; path_str (Path OUTPUT_FOLDER) +:+ ":/out";
               "nipreps/mriqc:22.0.6";
               "/data"; "/out";
               "participant";
               "--participant_label"; subj_id;
               "-m"; "T1w"; "T2w"; "bold"] in
            run_result <- subprocess_run cmd ;;
            if decide (returncode run_result ≠ 0%Z)
            then ret (jsonify [("error", "MRIQC failed");
                               ("stderr", stderr run_result)] 500)
            else
              (* 7) Zip the OUTPUT_FOLDER to return *)
              let result_zip_path := "/tmp/mriqc_results.zip" in
              shutil_make_archive (str_replace result_zip_path ".zip" "")
                                  "zip" OUTPUT_FOLDER ;;
              (* 8) Send results as a file *)
              send_file result_zip_path
        end
  end.

(** Steps 7 and 8 on their own: what the handler does once the tool
    has exited with status 0. *)
Definition deliver : io response :=
  shutil_make_archive "/tmp/mriqc_results" "zip" OUTPUT_FOLDER ;;
  send_file "/tmp/mriqc_results.zip".

End Handler.

(** ** Vocabulary of the statements *)

(** What a run gives: the response or the uncaught exception, the
    filesystem it leaves, and the effects it performed. *)
Definition outcome {A} (r : (exn + A) * node * trace) : exn + A := r.1.1.
Definition final_fs {A} (r : (exn + A) * node * trace) : node := r.1.2.
Definition effects {A} (r : (exn + A) * node * trace) : trace := r.2.

(** The children of directory [p], in enumeration order. *)
Definition children (p : path) (fs : node) : list path :=
  match fs_lookup p fs with
  | Some (Dir es) => path_child p <$> (map_to_list es).*1
  | _ => []
  end.

(** The input root: the first child of the upload workspace, in
    enumeration order, that is a directory. *)
Definition discovered_root (fs : node) : option path :=
  find (dir_at fs) (children (Path UPLOAD_FOLDER) fs).

(** The argument vector of step 6 for an input root and a label. *)
Definition docker_cmd (bids_root : path) (subj_id : string) : list string :=
  ["docker"; "run"; "--rm";
   "-v"; path_str bids_root +:+ ":/data:ro";
   "-v"; "/tmp/mriqc_output:/out";
   "nipreps/mriqc:22.0.6";
   "/data"; "/out";
   "participant";
   "--participant_label"; subj_id;
   "-m"; "T1w"; "T2w"; "bold"].

(** The effects of steps 2 to 4, each with the filesystem it left. *)
Definition staging (data : bytes) (fa fb fc fd fe fs3 : node) : trace :=
  [(EvRmtree UPLOAD_FOLDER, fa);
   (EvRmtree OUTPUT_FOLDER, fb);
   (EvMakedirs UPLOAD_FOLDER, fc);
   (EvMakedirs OUTPUT_FOLDER, fd);
   (EvSave "/tmp/mriqc_upload/bids_data.zip" data, fe);
   (EvExtractall "/tmp/mriqc_upload/bids_data.zip" UPLOAD_FOLDER, fs3)].

(** Steps 2 to 4 succeed on [fs] for the uploaded [data], leaving these
    filesystems one after the other. *)
Definition staged
    (zip_extractall :
       bytes -> gmap string node -> exn * gmap string node + gmap string node)
    (data : bytes) (fs fa fb fc fd fe fs3 : node) : Prop :=
  fa = rmtree_node (Path UPLOAD_FOLDER) fs ∧
  fb = rmtree_node (Path OUTPUT_FOLDER) fa ∧
  makedirs_node (Path UPLOAD_FOLDER) fb = inr fc ∧
  makedirs_node (Path OUTPUT_FOLDER) fc = inr fd ∧
  write_node (Path (os_path_join UPLOAD_FOLDER "bids_data.zip")) data fd = inr fe ∧
  extractall_node zip_extractall (Path (os_path_join UPLOAD_FOLDER "bids_data.zip"))
                  (Path UPLOAD_FOLDER) fe = inr fs3.

(** A filesystem by its parts: the root's entries, those of [/tmp], and
    what the two workspaces hold. *)
Definition ws (root tmp up out : gmap string node) : node :=
  Dir (<["tmp" := Dir (<["mriqc_output" := Dir out]>
                         (<["mriqc_upload" := Dir up]> tmp))]> root).

(** The entries of the root directory. *)
Definition root_of (fs : node) : gmap string node :=
  match fs with
  | Dir root => root
  | File _ => ∅
  end.

(** Walking [p] from [n] meets no regular file: every step is a
    directory or missing. *)
Fixpoint dir_or_absent (p : path) (n : node) : bool :=
  match n with
  | File _ => false
  | Dir es =>
      match p with
      | [] => true
      | c :: p' =>
          match es !! c with
          | Some k => dir_or_absent p' k
          | None => true
          end
      end
  end.

(** Neither workspace path leads to or through a regular file. *)
Definition workspace_free (fs : node) : Prop :=
  dir_or_absent (Path UPLOAD_FOLDER) fs = true ∧
  dir_or_absent (Path OUTPUT_FOLDER) fs = true.

(** The entries of [/tmp], none when it is missing. *)
Definition tmp_of (fs : node) : gmap string node :=
  match fs_lookup ["tmp"] fs with
  | Some (Dir tmp) => tmp
  | _ => ∅
  end.

(** A process that leaves the filesystem as it found it or changes only
    what the output workspace holds: a container with the input mounted
    read-only and the output workspace as its one writable mount. *)
Definition confined (exec : list string -> node -> exn + (CompletedProcess * node))
    : Prop :=
  forall cmd fs cp fs',
    exec cmd fs = inr (cp, fs') ->
    fs' = fs ∨ ∃ out, fs' = fs_put (Path OUTPUT_FOLDER) (Dir out) fs.

(** A process whose result and output are a function of its argument
    vector and of what the two workspaces hold: a deterministic tool that
    sees nothing but its mounts. *)
Definition hermetic (exec : list string -> node -> exn + (CompletedProcess * node))
    : Prop :=
  forall cmd fsA fsB cp fsA',
    fs_lookup (Path UPLOAD_FOLDER) fsA = fs_lookup (Path UPLOAD_FOLDER) fsB ->
    fs_lookup (Path OUTPUT_FOLDER) fsA = fs_lookup (Path OUTPUT_FOLDER) fsB ->
    exec cmd fsA = inr (cp, fsA') ->
    ∃ fsB', exec cmd fsB = inr (cp, fsB') ∧
            fs_lookup (Path OUTPUT_FOLDER) fsB' = fs_lookup (Path OUTPUT_FOLDER) fsA'.

(** The effects of the reset of step 2. *)
Definition is_reset (ev : event) : bool :=
  match ev with
  | EvRmtree _ | EvMakedirs _ => true
  | _ => false
  end.

(** The names under [/tmp] that belong to the program. *)
Definition workspace_names : list string :=
  ["mriqc_upload"; "mriqc_output"; "mriqc_results.zip"].

(** [fs'] holds what [fs] holds everywhere but under the program's three
    names: the root's entries other than [tmp] and the entries of [/tmp]
    other than those names are the same. *)
Definition outside_kept (fs fs' : node) : Prop :=
  (forall name, name ≠ "tmp" -> root_of fs' !! name = root_of fs !! name) ∧
  (forall name, name ∉ workspace_names -> tmp_of fs' !! name = tmp_of fs !! name).

(** The label the handler reads from the form. *)
Definition label_of (req : request) : string :=
  default "01" (multidict_get (form req) "participant_label").

(** The two JSON error bodies of the validation failures, and the one of
    a failed tool run. *)
Definition no_zip_response : response :=
  jsonify [("error", "No BIDS zip provided")] 400.

Definition no_dir_response : response :=
  jsonify [("error", "No BIDS directory found after unzipping.")] 400.

Definition failed_response (err : string) : response :=
  jsonify [("error", "MRIQC failed"); ("stderr", err)] 500.

(** ** Stand-ins for the collaborators

    A store-only archive format that keeps each member's modification
    time, and two container runs.  They give the statements below
    concrete instances to be checked on. *)

Module Stub.

(** A length, in unary. *)
Fixpoint put_nat (n : nat) : bytes :=
  match n with
  | O => [x00]
  | S k => x01 :: put_nat k
  end.

Fixpoint get_nat (bs : bytes) : option (nat * bytes) :=
  match bs with
  | x00 :: r => Some (O, r)
  | x01 :: r =>
      match get_nat r with
      | Some (n, r') => Some (S n, r')
      | None => None
      end
  | _ => None
  end.

Definition put_blob (d : bytes) : bytes := put_nat (length d) ++ d.

Definition get_blob (bs : bytes) : option (bytes * bytes) :=
  match get_nat bs with
  | Some (n, r) =>
      if decide (n ≤ length r)%nat then Some (take n r, drop n r) else None
  | None => None
  end.

(** A node: a tag and the modification time, in seconds, then a file's
    bytes or a directory's members, each under its name.  [p] is the
    node's path below the packed directory. *)
Fixpoint put_node (mtime : path -> Z) (p : path) (n : node) : bytes :=
  match n with
  | File d => x00 :: put_nat (Z.to_nat (mtime p)) ++ put_blob d
  | Dir es =>
      x01 :: put_nat (Z.to_nat (mtime p)) ++ put_nat (size es)
        ++ map_fold (fun name k acc =>
                       put_blob (list_byte_of_string name)
                         ++ put_node mtime (p ++ [name]) k ++ acc)
                    [] es
  end.

Fixpoint get_node (fuel : nat) (bs : bytes) : option (node * bytes) :=
  match fuel with
  | O => None
  | S fuel' =>
      match bs with
      | x00 :: r =>
          match get_nat r with
          | Some (_, r0) =>
              match get_blob r0 with
              | Some (d, r') => Some (File d, r')
              | None => None
              end
          | None => None
          end
      | x01 :: r =>
          match get_nat r with
          | Some (_, r0) =>
              match get_nat r0 with
              | Some (count, r') =>
                  (fix members (k : nat) (bs : bytes) (acc : gmap string node)
                     : option (node * bytes) :=
                     match k with
                     | O => Some (Dir acc, bs)
                     | S k' =>
                         match get_blob bs with
                         | Some (name, r1) =>
                             match get_node fuel' r1 with
                             | Some (child, r2) =>
                                 members k' r2
                                   (<[string_of_list_byte name := child]> acc)
                             | None => None
                             end
                         | None => None
                         end
                     end) count r' ∅
              | None => None
              end
          | None => None
          end
      | _ => None
      end
  end.

Definition zip_pack (mtime : path -> Z) (es : gmap string node) : bytes :=
  put_node mtime [] (Dir es).

Definition zip_unpack (data : bytes) : option (gmap string node) :=
  match get_node (length data) data with
  | Some (Dir es, []) => Some es
  | _ => None
  end.

(** Extraction: the archive's members, over what the directory held;
    bytes that are no archive are refused before anything is
    extracted. *)
Definition zip_extractall (data : bytes) (es : gmap string node)
    : exn * gmap string node + gmap string node :=
  match zip_unpack data with
  | Some members => inr (members ∪ es)
  | None => inl (BadZipFile, es)
  end.

(** Every member last modified [t] seconds into the epoch. *)
Definition at_time (t : Z) : path -> Z := fun _ => t.

(** A run that exits 0 after adding a report, which holds the label it
    was given, to what the output workspace holds. *)
Definition exec_ok (cmd : list string) (fs : node)
    : exn + (CompletedProcess * node) :=
  match fs_lookup (Path OUTPUT_FOLDER) fs with
  | Some (Dir out) =>
      let report := File (list_byte_of_string (default "" (cmd !! 12%nat))) in
      inr ({| returncode := 0; stdout := ""; stderr := "" |},
           fs_put (Path OUTPUT_FOLDER) (Dir (<["report.html" := report]> out)) fs)
  | _ => inr ({| returncode := 125; stdout := ""; stderr := "no output mount" |}, fs)
  end.

(** A run that exits 1 with ["boom"] on its error stream. *)
Definition exec_boom (cmd : list string) (fs : node)
    : exn + (CompletedProcess * node) :=
  inr ({| returncode := 1; stdout := ""; stderr := "boom" |}, fs).

(** A dataset with one top-level directory, and one with none. *)
Definition dataset : gmap string node :=
  {[ "ds" := Dir {[ "sub-01" := Dir {[ "T1w.nii" := File [x4e; x49] ]} ]} ]}.

Definition flat_dataset : gmap string node :=
  {[ "README" := File [x68; x69] ]}.

Definition upload_of (es : gmap string node) : FileStorage :=
  {| filename := "bids.zip"; stream := zip_pack (at_time 0) es |}.

Definition request_for (es : gmap string node) (form : list (string * string))
    : request :=
  {| files := [("bids_zip", upload_of es)]; form := form |}.

(** A machine with an empty [/tmp], and one with leftovers of an
    earlier request. *)
Definition fresh : node := Dir {[ "tmp" := Dir ∅ ]}.

Definition used : node :=
  Dir {[ "tmp" := Dir {[ "mriqc_upload" := Dir {[ "old" := Dir ∅ ]};
                         "mriqc_output" := Dir {[ "stale.html" := File [x00] ]};
                         "mriqc_results.zip" := File [x01] ]} ]}.

(** What the upload workspace holds once [es] has been uploaded and
    extracted, and the filesystem [used] has become by then. *)
Definition extracted_upload (es : gmap string node) : gmap string node :=
  es ∪ {[ "bids_data.zip" := File (zip_pack (at_time 0) es) ]}.

Definition staged_fs (es : gmap string node) : node :=
  ws (root_of used) (tmp_of used) (extracted_upload es) ∅.

(** What [exec_ok] writes for a label, and the filesystem after it. *)
Definition report (label : string) : gmap string node :=
  {[ "report.html" := File (list_byte_of_string label) ]}.

Definition reported_fs (es : gmap string node) (label : string) : node :=
  ws (root_of used) (tmp_of used) (extracted_upload es) (report label).

Definition exit_0 : CompletedProcess :=
  {| returncode := 0; stdout := ""; stderr := "" |}.

Definition exit_1 : CompletedProcess :=
  {| returncode := 1; stdout := ""; stderr := "boom" |}.

(** The vector [exec_ok] and [exec_boom] are run on for [dataset]. *)
Definition argv (label : string) : list string :=
  ["docker"; "run"; "--rm";
   "-v"; "/tmp/mriqc_upload/ds:/data:ro";
   "-v"; "/tmp/mriqc_output:/out";
   "nipreps/mriqc:22.0.6"; "/data"; "/out"; "participant";
   "--participant_label"; label;
   "-m"; "T1w"; "T2w"; "bold"].

(** A runtime that is not installed. *)
Definition exec_missing (cmd : list string) (fs : node)
    : exn + (CompletedProcess * node) :=
  inl FileNotFoundError.

(** An upload that is no archive. *)
Definition garbage : FileStorage :=
  {| filename := "notes.txt"; stream := [x68; x69] |}.

(** An extraction that fails on its second member: the first, [a], is
    there when [BadZipFile] is raised. *)
Definition zip_bad_member (data : bytes) (es : gmap string node)
    : exn * gmap string node + gmap string node :=
  inl (BadZipFile, <["a" := File [x61]]> es).

(** A machine that holds more than the program's files. *)
Definition shared : node :=
  Dir {[ "etc" := Dir {[ "hosts" := File [x31] ]};
         "tmp" := Dir {[ "notes.txt" := File [x32];
                         "mriqc_output" := Dir {[ "stale.html" := File [x00] ]} ]} ]}.

End Stub.

(** * Properties *)

Section Facts.

Variable zip_extractall :
  bytes -> gmap string node -> exn * gmap string node + gmap string node.
Variable zip_pack : (path -> Z) -> gmap string node -> bytes.
Variable st_mtime : path -> Z.
Variable exec : list string -> node -> exn + (CompletedProcess * node).

#[local] Abbreviation run := (run_mriqc zip_extractall zip_pack st_mtime exec).
#[local] Abbreviation UPp := ["tmp"; "mriqc_upload"] (only parsing).
#[local] Abbreviation OUTp := ["tmp"; "mriqc_output"] (only parsing).
#[local] Abbreviation ZIPp := ["tmp"; "mriqc_upload"; "bids_data.zip"] (only parsing).
#[local] Abbreviation ZIPs := "/tmp/mriqc_upload/bids_data.zip" (only parsing).

(** *** The paths of the program *)

Example Path_UPLOAD_FOLDER : Path UPLOAD_FOLDER = ["tmp"; "mriqc_upload"].
Proof. reflexivity. Qed.

Example Path_OUTPUT_FOLDER : Path OUTPUT_FOLDER = ["tmp"; "mriqc_output"].
Proof. reflexivity. Qed.

Example zip_path_value :
  os_path_join UPLOAD_FOLDER "bids_data.zip" = "/tmp/mriqc_upload/bids_data.zip".
Proof. reflexivity. Qed.

Example base_name_value :
  str_replace "/tmp/mriqc_results.zip" ".zip" "" = "/tmp/mriqc_results".
Proof. reflexivity. Qed.

Example archive_name_value :
  Path ("/tmp/mriqc_results" +:+ "." +:+ "zip") = Path "/tmp/mriqc_results.zip".
Proof. reflexivity. Qed.

Example path_str_child :
  path_str (Path UPLOAD_FOLDER ++ ["ds"]) = "/tmp/mriqc_upload/ds".
Proof. reflexivity. Qed.

Example str_replace_all : str_replace "a.zip.zip" ".zip" "-" = "a--".
Proof. reflexivity. Qed.

(** *** The monad unfolded *)

(** The loop of step 5 only reads: it is [find] with the directory
    test. *)
Lemma first_dir_find items fs :
  first_dir items fs = (inr (find (dir_at fs) items), fs, []).
Proof.
  induction items as [|item rest IH]; [done|].
  cbn [first_dir find]. unfold bind, Path_is_dir, ret.
  destruct (dir_at fs item); [done|]. by rewrite IH.
Qed.

(** The handler with the monad unfolded: one [match] per call that can
    raise, and the effects logged so far on every exit. *)
Lemma run_mriqc_unfold req upload fs :
  multidict_get (files req) "bids_zip" = Some upload ->
  FileStorage_bool upload = true ->
  run req fs =
    let fa := rmtree_node UPp fs in
    let fb := rmtree_node OUTp fa in
    let e1 := (EvRmtree UPLOAD_FOLDER, fa) in
    let e2 := (EvRmtree OUTPUT_FOLDER, fb) in
    match makedirs_node UPp fb with
    | inl e => (inl e, fb, [e1; e2])
    | inr fc =>
      let e3 := (EvMakedirs UPLOAD_FOLDER, fc) in
      match makedirs_node OUTp fc with
      | inl e => (inl e, fc, [e1; e2; e3])
      | inr fd =>
        let e4 := (EvMakedirs OUTPUT_FOLDER, fd) in
        match write_node ZIPp (stream upload) fd with
        | inl e => (inl e, fd, [e1; e2; e3; e4])
        | inr fe =>
          let e5 := (EvSave ZIPs (stream upload), fe) in
          match extractall_node zip_extractall ZIPp UPp fe with
          | inl (e, fs') => (inl e, fs', [e1; e2; e3; e4; e5])
          | inr fs3 =>
            let e6 := (EvExtractall ZIPs UPLOAD_FOLDER, fs3) in
            match fs_lookup UPp fs3 with
            | Some (Dir _) =>
              match discovered_root fs3 with
              | None => (inr no_dir_response, fs3, [e1; e2; e3; e4; e5; e6])
              | Some bids_root =>
                match exec (docker_cmd bids_root (label_of req)) fs3 with
                | inl e => (inl e, fs3, [e1; e2; e3; e4; e5; e6])
                | inr (cp, fs4) =>
                  let e7 := (EvRun (docker_cmd bids_root (label_of req)) false cp, fs4) in
                  if decide (returncode cp ≠ 0%Z)
                  then (inr (failed_response (stderr cp)), fs4,
                        [e1; e2; e3; e4; e5; e6; e7])
                  else match deliver zip_pack st_mtime fs4 with
                       | (r, fs5, t) => (r, fs5, [e1; e2; e3; e4; e5; e6; e7] ++ t)
                       end
                end
              end
            | Some (File _) => (inl NotADirectoryError, fs3, [e1; e2; e3; e4; e5; e6])
            | None => (inl FileNotFoundError, fs3, [e1; e2; e3; e4; e5; e6])
            end
          end
        end
      end
    end.
Proof.
  intros Hget Hbool. unfold run_mriqc. rewrite Hget, Hbool. cbn [negb].
  unfold shutil_rmtree, os_makedirs, FileStorage_save, ZipFile_extractall.
  change (Path UPLOAD_FOLDER) with UPp.
  change (Path OUTPUT_FOLDER) with OUTp.
  change (Path (os_path_join UPLOAD_FOLDER "bids_data.zip")) with ZIPp.
  change (os_path_join UPLOAD_FOLDER "bids_data.zip") with ZIPs.
  change (str_replace "/tmp/mriqc_results.zip" ".zip" "") with "/tmp/mriqc_results".
  change (path_str OUTp +:+ ":/out") with "/tmp/mriqc_output:/out".
  unfold bind, effect. cbn beta iota zeta.
  destruct (makedirs_node UPp _) as [e|fc]; [done|].
  destruct (makedirs_node OUTp fc) as [e|fd]; [done|].
  destruct (write_node ZIPp _ fd) as [e|fe]; [done|].
  destruct (extractall_node _ ZIPp UPp fe) as [[e fs']|fs3]; [done|].
  unfold Path_iterdir, discovered_root, children, ret, raise.
  change (Path UPLOAD_FOLDER) with UPp.
  destruct (fs_lookup UPp fs3) as [[d|es]|]; [done| |done].
  rewrite first_dir_find.
  destruct (find _ _) as [bids_root|]; [|done].
  unfold subprocess_run, docker_cmd, label_of, raise.
  destruct (exec _ fs3) as [e|[cp fs4]]; [done|].
  destruct (decide (returncode cp ≠ 0%Z)); [done|].
  unfold deliver, bind.
  destruct (shutil_make_archive _ _ _ _ _ fs4) as [[[e|name] fs5] t5]; [done|].
  by destruct (send_file _ fs5) as [[r fs6] t6].
Qed.

(** Without a usable payload the handler answers at once. *)
Lemma run_mriqc_no_upload req fs :
  (forall upload, multidict_get (files req) "bids_zip" = Some upload ->
                  FileStorage_bool upload = false) ->
  run req fs = (inr no_zip_response, fs, []).
Proof.
  intros Hno. unfold run_mriqc.
  destruct (multidict_get (files req) "bids_zip") as [upload|]; [|done].
  by rewrite (Hno upload eq_refl).
Qed.

(** Steps 7 and 8 log at most the packing. *)
Lemma deliver_effects fs :
  effects (deliver zip_pack st_mtime fs) = [] ∨
  effects (deliver zip_pack st_mtime fs) =
    [(EvMakeArchive "/tmp/mriqc_results" "zip" OUTPUT_FOLDER, final_fs (deliver zip_pack st_mtime fs))].
Proof.
  unfold deliver, shutil_make_archive, bind, effect, ret, send_file, effects, final_fs.
  destruct (make_archive_node _ _ _ _ _ fs) as [e|fs5]; [by left|].
  destruct (read_node _ fs5); by right.
Qed.

Ltac trace_absurd H :=
  unfold effects in H; cbn [snd app] in H;
  repeat (apply elem_of_cons in H as [H|H]; [discriminate H|]);
  by apply elem_of_nil in H.

(** Every way the tool can have been run: the payload was usable, steps
    2 to 4 succeeded, an input root was found in what the extraction
    left, and the run is the only one. *)
Lemma ran_tool req fs args sh cp fs4 :
  (EvRun args sh cp, fs4) ∈ effects (run req fs) ->
  ∃ upload fa fb fc fd fe fs3 bids_root,
    multidict_get (files req) "bids_zip" = Some upload ∧
    FileStorage_bool upload = true ∧
    staged zip_extractall (stream upload) fs fa fb fc fd fe fs3 ∧
    discovered_root fs3 = Some bids_root ∧
    args = docker_cmd bids_root (label_of req) ∧
    sh = false ∧
    exec args fs3 = inr (cp, fs4) ∧
    let before := staging (stream upload) fa fb fc fd fe fs3
                    ++ [(EvRun args sh cp, fs4)] in
    run req fs =
      if decide (returncode cp ≠ 0%Z)
      then (inr (failed_response (stderr cp)), fs4, before)
      else (outcome (deliver zip_pack st_mtime fs4), final_fs (deliver zip_pack st_mtime fs4),
            before ++ effects (deliver zip_pack st_mtime fs4)).
Proof.
  intros Hin.
  destruct (multidict_get (files req) "bids_zip") as [upload|] eqn:Hget;
    [destruct (FileStorage_bool upload) eqn:Hbool|].
  2,3: rewrite run_mriqc_no_upload in Hin;
       [trace_absurd Hin | intros u Hu; congruence].
  rewrite (run_mriqc_unfold _ _ _ Hget Hbool) in *. cbn zeta in *.
  set (fa := rmtree_node UPp fs) in *. set (fb := rmtree_node OUTp fa) in *.
  destruct (makedirs_node UPp _) as [e|fc] eqn:H3; [trace_absurd Hin|].
  destruct (makedirs_node OUTp fc) as [e|fd] eqn:H4; [trace_absurd Hin|].
  destruct (write_node ZIPp _ fd) as [e|fe] eqn:H5; [trace_absurd Hin|].
  destruct (extractall_node _ ZIPp UPp fe) as [[e fs']|fs3] eqn:H6; [trace_absurd Hin|].
  destruct (fs_lookup UPp fs3) as [[d|es]|]; [trace_absurd Hin| |trace_absurd Hin].
  destruct (discovered_root fs3) as [bids_root|] eqn:Hroot; [|trace_absurd Hin].
  destruct (exec _ fs3) as [e|[cp' fs4']] eqn:Hexec; [trace_absurd Hin|].
  assert (args = docker_cmd bids_root (label_of req) ∧ sh = false
          ∧ cp = cp' ∧ fs4 = fs4') as (-> & -> & -> & ->).
  { destruct (decide (returncode cp' ≠ 0%Z)).
    - unfold effects in Hin; cbn [snd] in Hin.
      repeat (apply elem_of_cons in Hin as [Hin|Hin]; [by simplify_eq|]).
      by apply elem_of_nil in Hin.
    - destruct (deliver zip_pack st_mtime fs4') as [[r fs5] t] eqn:Hd.
      pose proof (deliver_effects fs4') as Ht. rewrite Hd in Ht.
      unfold effects, final_fs in Ht, Hin. cbn [fst snd app] in Ht, Hin.
      repeat (apply elem_of_cons in Hin as [Hin|Hin]; [by simplify_eq|]).
      destruct Ht as [->| ->]; trace_absurd Hin. }
  exists upload, fa, fb, fc, fd, fe, fs3, bids_root.
  repeat split; try done.
  cbn zeta. destruct (decide (returncode cp' ≠ 0%Z)); [done|].
  by destruct (deliver zip_pack st_mtime fs4') as [[r fs5] t].
Qed.

(** *** Facts about the tree *)

Lemma fs_lookup_put p new n :
  is_Some (fs_lookup p n) -> fs_lookup p (fs_put p new n) = Some new.
Proof.
  revert n. induction p as [|c p IH]; intros n Hn; [done|].
  destruct n as [d|es]; [by destruct Hn|]. cbn in Hn.
  destruct (es !! c) as [k|] eqn:Hc; [|by destruct Hn].
  destruct p as [|c' p].
  - cbn. by rewrite lookup_insert_eq.
  - cbn [fs_put fs_lookup]. rewrite Hc. cbn [fs_lookup].
    rewrite lookup_insert_eq. by apply IH.
Qed.

Lemma fs_lookup_child p c n :
  fs_lookup (p ++ [c]) n =
    match fs_lookup p n with
    | Some (Dir es) => es !! c
    | _ => None
    end.
Proof.
  revert n. induction p as [|c' p IH]; intros n.
  - destruct n as [d|es]; [done|]. cbn. by destruct (es !! c).
  - destruct n as [d|es]; [done|]. cbn.
    destruct (es !! c') as [k|]; [apply IH|done].
Qed.

Lemma children_child p fs q :
  q ∈ children p fs -> ∃ name, q = p ++ [name].
Proof.
  unfold children. destruct (fs_lookup p fs) as [[d|es]|].
  1,3: by intros ?%elem_of_nil.
  intros (name & -> & _)%list_elem_of_fmap. by exists name.
Qed.

Lemma find_all_false {A} (f : A -> bool) (l : list A) :
  (forall x, x ∈ l -> f x = false) -> find f l = None.
Proof.
  induction l as [|x l IH]; intros Hall; [done|]. cbn.
  rewrite (Hall x) by apply list_elem_of_here.
  apply IH. intros y Hy. apply Hall. by apply list_elem_of_further.
Qed.

(** A successful extraction replaces the entries of its target, a
    directory, by what the codec makes of them. *)
Lemma extractall_node_dir zp tgt fs fs' :
  extractall_node zip_extractall zp tgt fs = inr fs' ->
  ∃ es es' data,
    read_node zp fs = inr data ∧
    fs_lookup tgt fs = Some (Dir es) ∧
    fs_lookup tgt fs' = Some (Dir es') ∧
    zip_extractall data es = inr es' ∧
    fs' = fs_put tgt (Dir es') fs.
Proof.
  unfold extractall_node. intros Hex.
  destruct (read_node zp fs) as [e|data]; [done|].
  destruct (fs_lookup tgt fs) as [[d|es]|] eqn:Hup; [done| |done].
  destruct (zip_extractall data es) as [[e part]|es'] eqn:Hzip; [done|].
  exists es, es', data. repeat split; try done.
  - assert (fs' = fs_put tgt (Dir es') fs) as -> by congruence.
    apply fs_lookup_put. by rewrite Hup.
  - congruence.
Qed.

(** A failing extraction leaves the filesystem as it was, but for what
    its target holds. *)
Lemma extractall_node_raises zp tgt fs e fs' :
  extractall_node zip_extractall zp tgt fs = inl (e, fs') ->
  fs' = fs ∨ ∃ part, fs' = fs_put tgt (Dir part) fs.
Proof.
  unfold extractall_node. intros Hex.
  destruct (read_node zp fs) as [e0|data]; [left; congruence|].
  destruct (fs_lookup tgt fs) as [[d|es]|]; [left; congruence| |left; congruence].
  destruct (zip_extractall data es) as [[e0 part]|es']; [|done].
  right. exists part. congruence.
Qed.

(** Every way the extraction can have succeeded: the upload workspace
    is a directory afterwards, and without an input root the handler
    answers there. *)
Lemma extracted req fs zp tgt fs3 :
  (EvExtractall zp tgt, fs3) ∈ effects (run req fs) ->
  ∃ upload fa fb fc fd fe es,
    multidict_get (files req) "bids_zip" = Some upload ∧
    FileStorage_bool upload = true ∧
    staged zip_extractall (stream upload) fs fa fb fc fd fe fs3 ∧
    fs_lookup UPp fs3 = Some (Dir es) ∧
    (discovered_root fs3 = None ->
     run req fs = (inr no_dir_response, fs3,
                   staging (stream upload) fa fb fc fd fe fs3)).
Proof.
  intros Hin.
  destruct (multidict_get (files req) "bids_zip") as [upload|] eqn:Hget;
    [destruct (FileStorage_bool upload) eqn:Hbool|].
  2,3: rewrite run_mriqc_no_upload in Hin;
       [trace_absurd Hin | intros u Hu; congruence].
  rewrite (run_mriqc_unfold _ _ _ Hget Hbool) in *. cbn zeta in *.
  set (fa := rmtree_node UPp fs) in *. set (fb := rmtree_node OUTp fa) in *.
  destruct (makedirs_node UPp _) as [e|fc] eqn:H3; [trace_absurd Hin|].
  destruct (makedirs_node OUTp fc) as [e|fd] eqn:H4; [trace_absurd Hin|].
  destruct (write_node ZIPp _ fd) as [e|fe] eqn:H5; [trace_absurd Hin|].
  destruct (extractall_node _ ZIPp UPp fe) as [[e fs']|fs3'] eqn:Hex; [trace_absurd Hin|].
  destruct (extractall_node_dir _ _ _ _ Hex) as (es0 & es & data & _ & _ & Hes & _).
  assert (fs3 = fs3') as ->.
  { rewrite Hes in Hin.
    destruct (discovered_root fs3') as [bids_root|].
    2: { unfold effects in Hin; cbn [snd] in Hin.
         repeat (apply elem_of_cons in Hin as [Hin|Hin]; [by simplify_eq|]).
         by apply elem_of_nil in Hin. }
    destruct (exec _ fs3') as [e|[cp fs4]].
    { unfold effects in Hin; cbn [snd] in Hin.
      repeat (apply elem_of_cons in Hin as [Hin|Hin]; [by simplify_eq|]).
      by apply elem_of_nil in Hin. }
    destruct (decide (returncode cp ≠ 0%Z)).
    - unfold effects in Hin; cbn [snd] in Hin.
      repeat (apply elem_of_cons in Hin as [Hin|Hin]; [by simplify_eq|]).
      by apply elem_of_nil in Hin.
    - destruct (deliver zip_pack st_mtime fs4) as [[r fs5] t] eqn:Hd.
      pose proof (deliver_effects fs4) as Ht. rewrite Hd in Ht.
      unfold effects, final_fs in Ht, Hin. cbn [fst snd app] in Ht, Hin.
      repeat (apply elem_of_cons in Hin as [Hin|Hin]; [by simplify_eq|]).
      destruct Ht as [->| ->]; trace_absurd Hin. }
  exists upload, fa, fb, fc, fd, fe, es. repeat split; try done.
  intros Hnone. by rewrite Hes, Hnone.
Qed.

(** The handler from a usable payload on, once steps 2 to 4 are known
    to succeed. *)
Lemma run_mriqc_staged req upload fs fa fb fc fd fe fs3 :
  multidict_get (files req) "bids_zip" = Some upload ->
  FileStorage_bool upload = true ->
  staged zip_extractall (stream upload) fs fa fb fc fd fe fs3 ->
  run req fs =
    let before := staging (stream upload) fa fb fc fd fe fs3 in
    match discovered_root fs3 with
    | None => (inr no_dir_response, fs3, before)
    | Some bids_root =>
        let cmd := docker_cmd bids_root (label_of req) in
        match exec cmd fs3 with
        | inl e => (inl e, fs3, before)
        | inr (cp, fs4) =>
            let ran := before ++ [(EvRun cmd false cp, fs4)] in
            if decide (returncode cp ≠ 0%Z)
            then (inr (failed_response (stderr cp)), fs4, ran)
            else (outcome (deliver zip_pack st_mtime fs4), final_fs (deliver zip_pack st_mtime fs4),
                  ran ++ effects (deliver zip_pack st_mtime fs4))
        end
    end.
Proof.
  intros Hget Hbool (-> & -> & H3 & H4 & H5 & H6).
  rewrite (run_mriqc_unfold _ _ _ Hget Hbool). cbn zeta.
  change (Path UPLOAD_FOLDER) with UPp in *.
  change (Path OUTPUT_FOLDER) with OUTp in *.
  change (Path (os_path_join UPLOAD_FOLDER "bids_data.zip")) with ZIPp in *.
  rewrite H3, H4, H5, H6.
  destruct (extractall_node_dir _ _ _ _ H6) as (es0 & es & data & _ & _ & -> & _).
  destruct (discovered_root fs3) as [bids_root|]; [|done].
  destruct (exec _ fs3) as [e|[cp fs4]]; [done|].
  destruct (decide (returncode cp ≠ 0%Z)); [done|].
  by destruct (deliver zip_pack st_mtime fs4) as [[r fs5] t].
Qed.

(** Steps 2 to 4 are functions of the payload and the filesystem. *)
Lemma staged_unique data fs fa fb fc fd fe fs3 fa' fb' fc' fd' fe' fs3' :
  staged zip_extractall data fs fa fb fc fd fe fs3 ->
  staged zip_extractall data fs fa' fb' fc' fd' fe' fs3' ->
  fa = fa' ∧ fb = fb' ∧ fc = fc' ∧ fd = fd' ∧ fe = fe' ∧ fs3 = fs3'.
Proof.
  intros (-> & -> & H3 & H4 & H5 & H6) (-> & -> & H3' & H4' & H5' & H6').
  rewrite H3 in H3'. injection H3' as <-.
  rewrite H4 in H4'. injection H4' as <-.
  rewrite H5 in H5'. injection H5' as <-.
  rewrite H6 in H6'. by injection H6' as <-.
Qed.

(** The input root is a child of the upload workspace and a
    directory. *)
Lemma discovered_root_child fs bids_root :
  discovered_root fs = Some bids_root ->
  (∃ name, bids_root = Path UPLOAD_FOLDER ++ [name]) ∧ dir_at fs bids_root = true.
Proof.
  unfold discovered_root. intros [Hin Hdir]%find_some. split; [|done].
  apply list_elem_of_In in Hin. by apply children_child in Hin.
Qed.

(** Once the tool has run, the extraction is in the log. *)
Lemma ran_tool_extracted req fs args sh cp fs4 :
  (EvRun args sh cp, fs4) ∈ effects (run req fs) ->
  ∃ fs3 bids_root,
    (EvExtractall "/tmp/mriqc_upload/bids_data.zip" UPLOAD_FOLDER, fs3)
      ∈ effects (run req fs) ∧
    discovered_root fs3 = Some bids_root ∧
    args = docker_cmd bids_root (label_of req) ∧
    sh = false ∧
    exec args fs3 = inr (cp, fs4).
Proof.
  intros Hin.
  destruct (ran_tool _ _ _ _ _ _ Hin)
    as (upload & fa & fb & fc & fd & fe & fs3 & bids_root
        & _ & _ & _ & Hroot & Hargs & Hsh & Hexec & Hrun).
  exists fs3, bids_root. repeat split; try done.
  rewrite Hrun. cbn zeta. unfold staging.
  destruct (decide (returncode cp ≠ 0%Z)); unfold effects; cbn [snd app];
    do 5 apply list_elem_of_further; apply list_elem_of_here.
Qed.

(** *** The filesystem by its parts *)

#[local] Abbreviation RESp := ["tmp"; "mriqc_results.zip"] (only parsing).

Lemma ws_lookup_upload root tmp up out :
  fs_lookup UPp (ws root tmp up out) = Some (Dir up).
Proof. unfold ws. cbn [fs_lookup]. by simplify_map_eq. Qed.

Lemma ws_lookup_output root tmp up out :
  fs_lookup OUTp (ws root tmp up out) = Some (Dir out).
Proof. unfold ws. cbn [fs_lookup]. by simplify_map_eq. Qed.

Lemma ws_put_upload root tmp up out up' :
  fs_put UPp (Dir up') (ws root tmp up out) = ws root tmp up' out.
Proof.
  unfold ws. cbn [fs_put]. simplify_map_eq. rewrite insert_insert_eq.
  do 2 f_equal. f_equal.
  rewrite (insert_insert_ne _ "mriqc_upload" "mriqc_output") by done.
  by rewrite insert_insert_eq.
Qed.

Lemma ws_put_output root tmp up out out' :
  fs_put OUTp (Dir out') (ws root tmp up out) = ws root tmp up out'.
Proof.
  unfold ws. cbn [fs_put]. simplify_map_eq.
  by rewrite !insert_insert_eq.
Qed.

Lemma ws_write_zip root tmp out data :
  write_node ZIPp data (ws root tmp ∅ out) =
    inr (ws root tmp {[ "bids_data.zip" := File data ]} out).
Proof.
  unfold ws. cbn [write_node]. simplify_map_eq. rewrite insert_insert_eq.
  do 3 f_equal. f_equal.
  rewrite (insert_insert_ne _ "mriqc_upload" "mriqc_output") by done.
  by rewrite insert_insert_eq.
Qed.

Lemma ws_extract root tmp up out data up' :
  up !! "bids_data.zip" = Some (File data) ->
  zip_extractall data up = inr up' ->
  extractall_node zip_extractall ZIPp UPp (ws root tmp up out) =
    inr (ws root tmp up' out).
Proof.
  intros Hzip Hex. unfold extractall_node, read_node.
  change ZIPp with (UPp ++ ["bids_data.zip"]).
  rewrite fs_lookup_child, ws_lookup_upload, Hzip, Hex.
  by rewrite ws_put_upload.
Qed.

Lemma ws_extract_raises root tmp up out data e part :
  up !! "bids_data.zip" = Some (File data) ->
  zip_extractall data up = inl (e, part) ->
  extractall_node zip_extractall ZIPp UPp (ws root tmp up out) =
    inl (e, ws root tmp part out).
Proof.
  intros Hzip Hex. unfold extractall_node, read_node.
  change ZIPp with (UPp ++ ["bids_data.zip"]).
  rewrite fs_lookup_child, ws_lookup_upload, Hzip, Hex.
  by rewrite ws_put_upload.
Qed.

Lemma ws_write_result root tmp up out data :
  (forall es, tmp !! "mriqc_results.zip" ≠ Some (Dir es)) ->
  write_node RESp data (ws root tmp up out) =
    inr (ws root (<["mriqc_results.zip" := File data]> tmp) up out).
Proof.
  intros Hres. unfold ws. cbn [write_node]. simplify_map_eq.
  destruct (tmp !! "mriqc_results.zip") as [[d|es]|] eqn:Ho;
    [| by destruct (Hres es) |].
  all: rewrite insert_insert_eq; do 3 f_equal; f_equal.
  all: rewrite (insert_insert_ne _ "mriqc_results.zip" "mriqc_output") by done.
  all: by rewrite (insert_insert_ne _ "mriqc_results.zip" "mriqc_upload") by done.
Qed.

Lemma ws_read_result root tmp up out :
  read_node RESp (ws root tmp up out) =
    match tmp !! "mriqc_results.zip" with
    | Some (File d) => inr d
    | Some (Dir _) => inl IsADirectoryError
    | None => inl FileNotFoundError
    end.
Proof.
  unfold read_node, ws. cbn [fs_lookup]. rewrite lookup_insert_eq.
  rewrite !lookup_insert_ne by done.
  by destruct (tmp !! "mriqc_results.zip") as [[d|es]|].
Qed.

Lemma rmtree_tmp_child c root tmp :
  root !! "tmp" = Some (Dir tmp) ->
  (forall d, tmp !! c ≠ Some (File d)) ->
  rmtree_node ["tmp"; c] (Dir root) = Dir (<["tmp" := Dir (delete c tmp)]> root).
Proof.
  intros Htmp Hc. cbn [rmtree_node]. rewrite Htmp.
  destruct (tmp !! c) as [[d|es]|] eqn:Hk; [by destruct (Hc d)|done|].
  by rewrite delete_id.
Qed.

Lemma makedirs_tmp_child c root tmp :
  root !! "tmp" = Some (Dir tmp) ->
  tmp !! c = None ->
  makedirs_node ["tmp"; c] (Dir root) =
    inr (Dir (<["tmp" := Dir (<[c := Dir ∅]> tmp)]> root)).
Proof.
  intros Htmp Hc. cbn [makedirs_node]. rewrite Htmp.
  cbn [default from_option id makedirs_node]. by rewrite Hc.
Qed.

Lemma free_child c root tmp :
  dir_or_absent ["tmp"; c] (Dir root) = true ->
  root !! "tmp" = Some (Dir tmp) ->
  forall d, tmp !! c ≠ Some (File d).
Proof.
  intros Hfree Htmp d Hc. cbn [dir_or_absent] in Hfree.
  by rewrite Htmp, Hc in Hfree.
Qed.

(** The reset of step 2 on a filesystem whose workspace paths are
    free: both directories are removed, then made anew and empty. *)
Lemma reset_free fs :
  workspace_free fs ->
  let fa := rmtree_node UPp fs in
  let fb := rmtree_node OUTp fa in
  fs_lookup UPp fa = None ∧
  fs_lookup UPp fb = None ∧
  fs_lookup OUTp fb = None ∧
  ∃ fc, makedirs_node UPp fb = inr fc ∧
        makedirs_node OUTp fc = inr (ws (root_of fs) (tmp_of fs) ∅ ∅).
Proof.
  unfold workspace_free.
  change (Path UPLOAD_FOLDER) with UPp. change (Path OUTPUT_FOLDER) with OUTp.
  intros [Hup Hout]. destruct fs as [d|root]; [done|].
  unfold tmp_of, ws. cbn [fs_lookup root_of].
  destruct (root !! "tmp") as [[d|tmp]|] eqn:Htmp.
  - cbn [dir_or_absent] in Hup. by rewrite Htmp in Hup.
  - pose proof (free_child _ _ _ Hup Htmp) as Hu.
    pose proof (free_child _ _ _ Hout Htmp) as Ho.
    rewrite (rmtree_tmp_child _ _ _ Htmp Hu).
    rewrite (rmtree_tmp_child "mriqc_output" _ (delete "mriqc_upload" tmp)).
    2: by rewrite lookup_insert_eq.
    2: { intros d. rewrite lookup_delete_ne by done. apply Ho. }
    cbn zeta. cbn [fs_lookup]. rewrite !lookup_insert_eq.
    rewrite lookup_delete_eq.
    rewrite (lookup_delete_ne _ "mriqc_output" "mriqc_upload") by done.
    rewrite !lookup_delete_eq.
    do 3 (split; [done|]).
    eexists. split.
    { apply makedirs_tmp_child; [by rewrite lookup_insert_eq|].
      rewrite lookup_delete_ne by done. apply lookup_delete_eq. }
    rewrite (makedirs_tmp_child "mriqc_output" _
               (<["mriqc_upload" := Dir ∅]>
                  (delete "mriqc_output" (delete "mriqc_upload" tmp)))).
    2: by rewrite lookup_insert_eq.
    2: { rewrite lookup_insert_ne by done. apply lookup_delete_eq. }
    rewrite !insert_insert_eq. do 3 f_equal. f_equal.
    apply map_eq. intros i.
    destruct (decide (i = "mriqc_output")) as [->|Hio];
      [by rewrite !lookup_insert_eq|].
    rewrite !(lookup_insert_ne _ "mriqc_output") by done.
    destruct (decide (i = "mriqc_upload")) as [->|Hiu];
      [by rewrite !lookup_insert_eq|].
    rewrite !(lookup_insert_ne _ "mriqc_upload") by done.
    by rewrite !lookup_delete_ne by done.
  - cbn [rmtree_node]. rewrite Htmp. cbn zeta. cbn [rmtree_node]. rewrite Htmp.
    cbn [fs_lookup]. rewrite Htmp. do 3 (split; [done|]).
    cbn [makedirs_node]. rewrite Htmp. cbn [default from_option id makedirs_node].
    rewrite lookup_empty. cbn [default from_option id].
    eexists. split; [done|].
    cbn [makedirs_node]. rewrite lookup_insert_eq.
    cbn [default from_option id makedirs_node].
    rewrite lookup_insert_ne by done. rewrite lookup_empty.
    cbn [default from_option id].
    by rewrite insert_insert_eq.
Qed.

(** Conversely, the reset only succeeds when the workspace paths are
    free. *)
Lemma reset_needs_free fs fc fd :
  makedirs_node UPp (rmtree_node OUTp (rmtree_node UPp fs)) = inr fc ->
  makedirs_node OUTp fc = inr fd ->
  workspace_free fs.
Proof.
  unfold workspace_free.
  change (Path UPLOAD_FOLDER) with UPp. change (Path OUTPUT_FOLDER) with OUTp.
  destruct fs as [d|root]; [done|]. cbn [dir_or_absent].
  destruct (root !! "tmp") as [[d|tmp]|] eqn:Htmp; [|
    destruct (tmp !! "mriqc_upload") as [[d|up]|] eqn:Hu;
    destruct (tmp !! "mriqc_output") as [[d'|out]|] eqn:Ho | done];
    cbn [dir_or_absent]; try done.
  all: cbn [rmtree_node]; rewrite Htmp; cbn [rmtree_node];
       rewrite ?Hu, ?lookup_insert_eq; cbn [rmtree_node];
       rewrite ?lookup_delete_ne by done; rewrite ?Ho.
  all: cbn [makedirs_node]; rewrite ?lookup_insert_eq;
       cbn [default from_option id makedirs_node];
       rewrite ?lookup_insert_eq, ?lookup_delete_ne by done;
       rewrite ?Hu; cbn [default from_option id makedirs_node]; try done.
  all: rewrite ?lookup_delete_eq; cbn [default from_option id makedirs_node].
  all: intros [= <-]; cbn [makedirs_node]; rewrite ?lookup_insert_eq;
       cbn [default from_option id makedirs_node];
       rewrite ?lookup_insert_ne by done;
       rewrite ?lookup_insert_eq, ?lookup_delete_ne by done;
       rewrite ?Ho; cbn [default from_option id makedirs_node]; try done.
Qed.

Abbreviation ZIPn := "bids_data.zip" (only parsing).
Abbreviation RESn := "mriqc_results.zip" (only parsing).

(** Steps 2 to 4, when they succeed, by the parts of the filesystem:
    the workspace paths were free, the workspaces are emptied, the upload
    is saved and the codec extracts it next to itself. *)
Lemma staged_shape data fs fa fb fc fd fe fs3 :
  staged zip_extractall data fs fa fb fc fd fe fs3 ->
  workspace_free fs ∧
  ∃ up, zip_extractall data {[ ZIPn := File data ]} = inr up ∧
        fd = ws (root_of fs) (tmp_of fs) ∅ ∅ ∧
        fe = ws (root_of fs) (tmp_of fs) {[ ZIPn := File data ]} ∅ ∧
        fs3 = ws (root_of fs) (tmp_of fs) up ∅.
Proof.
  intros (-> & -> & H3 & H4 & H5 & H6).
  change (Path UPLOAD_FOLDER) with UPp in *.
  change (Path OUTPUT_FOLDER) with OUTp in *.
  change (Path (os_path_join UPLOAD_FOLDER "bids_data.zip")) with ZIPp in *.
  pose proof (reset_needs_free _ _ _ H3 H4) as Hfree. split; [done|].
  destruct (reset_free _ Hfree) as (_ & _ & _ & fc' & H3' & H4').
  rewrite H3 in H3'. injection H3' as <-.
  rewrite H4 in H4'. injection H4' as ->.
  rewrite ws_write_zip in H5. injection H5 as <-.
  destruct (extractall_node_dir _ _ _ _ H6)
    as (es & up & data' & Hread & Hes & _ & Hzip & ->).
  rewrite ws_lookup_upload in Hes. injection Hes as <-.
  unfold read_node in Hread. change ZIPp with (UPp ++ [ZIPn]) in Hread.
  rewrite fs_lookup_child, ws_lookup_upload, lookup_singleton_eq in Hread.
  injection Hread as <-.
  exists up. by rewrite ws_put_upload.
Qed.

(** And they do succeed on free workspace paths when the codec can
    extract the upload. *)
Lemma staged_intro data fs up :
  workspace_free fs ->
  zip_extractall data {[ ZIPn := File data ]} = inr up ->
  ∃ fa fb fc fd fe,
    staged zip_extractall data fs fa fb fc fd fe
           (ws (root_of fs) (tmp_of fs) up ∅).
Proof.
  intros Hfree Hzip.
  destruct (reset_free _ Hfree) as (_ & _ & _ & fc & H3 & H4).
  eexists _, _, fc, _, _. repeat split; [exact H3|exact H4|apply ws_write_zip|].
  change (Path UPLOAD_FOLDER) with UPp.
  change (Path (os_path_join UPLOAD_FOLDER "bids_data.zip")) with ZIPp.
  apply (ws_extract _ _ _ _ data); [apply lookup_singleton_eq|done].
Qed.

(** The packing by the parts of the filesystem: [/tmp] is there and
    the output workspace is a directory, so what it holds is packed. *)
Lemma make_archive_ws root tmp up out :
  make_archive_node zip_pack st_mtime RESp "zip" OUTp (ws root tmp up out) =
    write_node RESp (zip_pack st_mtime out) (ws root tmp up out).
Proof.
  unfold make_archive_node. rewrite decide_True by done.
  change (removelast RESp) with ["tmp"].
  assert (path_exists ["tmp"] (ws root tmp up out) = true) as ->.
  { unfold path_exists, ws. cbn [fs_lookup]. by rewrite lookup_insert_eq. }
  unfold walk. by rewrite ws_lookup_output.
Qed.

(** Steps 7 and 8 by the parts of the filesystem. *)
Lemma deliver_ws root tmp up out :
  (forall es, tmp !! RESn ≠ Some (Dir es)) ->
  deliver zip_pack st_mtime (ws root tmp up out) =
    let fs5 := ws root (<[RESn := File (zip_pack st_mtime out)]> tmp) up out in
    (inr {| status := 200;
            payload := Attachment "mriqc_results.zip" (zip_pack st_mtime out) |},
     fs5,
     [(EvMakeArchive "/tmp/mriqc_results" "zip" OUTPUT_FOLDER, fs5)]).
Proof.
  intros Hres.
  unfold deliver, shutil_make_archive, bind, effect, ret, send_file.
  change (Path ("/tmp/mriqc_results" +:+ "." +:+ "zip")) with RESp.
  change (Path "/tmp/mriqc_results.zip") with RESp.
  change (Path OUTPUT_FOLDER) with OUTp.
  rewrite make_archive_ws, (ws_write_result _ _ _ _ _ Hres).
  by rewrite ws_read_result, lookup_insert_eq.
Qed.

Lemma deliver_ws_blocked root tmp up out es :
  tmp !! RESn = Some (Dir es) ->
  outcome (deliver zip_pack st_mtime (ws root tmp up out)) = inl IsADirectoryError.
Proof.
  intros Hres.
  unfold deliver, shutil_make_archive, bind, effect, ret, send_file.
  change (Path ("/tmp/mriqc_results" +:+ "." +:+ "zip")) with RESp.
  change (Path OUTPUT_FOLDER) with OUTp.
  rewrite make_archive_ws.
  unfold ws. cbn [write_node]. rewrite lookup_insert_eq.
  rewrite !lookup_insert_ne by done. by rewrite Hres.
Qed.

(** What is found as input root depends on the upload workspace only. *)
Lemma discovered_root_ext fsA fsB :
  fs_lookup UPp fsA = fs_lookup UPp fsB ->
  discovered_root fsA = discovered_root fsB.
Proof.
  intros Heq. unfold discovered_root, children.
  change (Path UPLOAD_FOLDER) with UPp. rewrite <- Heq.
  destruct (fs_lookup UPp fsA) as [[d|es]|] eqn:Hup; [done| |done].
  assert (fs_lookup UPp fsB = Some (Dir es)) as HupB by congruence.
  generalize ((map_to_list es).*1). intros names.
  induction names as [|name names IH]; [done|].
  cbn [fmap list_fmap find].
  replace (dir_at fsB (path_child UPp name))
    with (dir_at fsA (path_child UPp name)).
  - destruct (dir_at fsA (path_child UPp name)); [done|apply IH].
  - unfold dir_at, path_child. by rewrite !fs_lookup_child, Hup, HupB.
Qed.

Lemma find_is_Some {A} (f : A -> bool) (l : list A) x :
  x ∈ l -> f x = true -> is_Some (find f l).
Proof.
  induction l as [|y l IH]; intros Hin Hx; [by apply elem_of_nil in Hin|].
  cbn. destruct (f y) eqn:Hy; [done|].
  apply elem_of_cons in Hin as [->|Hin]; [congruence|by apply IH].
Qed.

(** With exactly one directory among the children of the upload
    workspace, that one is the input root, whatever the enumeration
    order. *)
Lemma discovered_root_only fs name sub :
  fs_lookup (UPp ++ [name]) fs = Some (Dir sub) ->
  (forall name' k, fs_lookup (UPp ++ [name']) fs = Some (Dir k) -> name' = name) ->
  discovered_root fs = Some (UPp ++ [name]).
Proof.
  intros Hdir Honly.
  assert (is_Some (discovered_root fs)) as [bids_root Hroot].
  { unfold discovered_root. apply (find_is_Some _ _ (UPp ++ [name])).
    - unfold children. change (Path UPLOAD_FOLDER) with UPp.
      rewrite fs_lookup_child in Hdir.
      destruct (fs_lookup UPp fs) as [[d|es]|]; [done| |done].
      apply list_elem_of_fmap. exists name. split; [done|].
      apply list_elem_of_fmap. exists (name, Dir sub). split; [done|].
      by apply elem_of_map_to_list.
    - unfold dir_at. by rewrite Hdir. }
  rewrite Hroot. f_equal.
  destruct (discovered_root_child _ _ Hroot) as [[name' ->] Hd].
  change (Path UPLOAD_FOLDER) with UPp in *. unfold dir_at in Hd.
  destruct (fs_lookup (UPp ++ [name']) fs) as [[d|k]|] eqn:Hk; try done.
  by rewrite (Honly _ _ Hk).
Qed.

Lemma ws_free root tmp up out : workspace_free (ws root tmp up out).
Proof.
  unfold workspace_free, ws.
  change (Path UPLOAD_FOLDER) with UPp. change (Path OUTPUT_FOLDER) with OUTp.
  do 3 (cbn [dir_or_absent]; rewrite ?lookup_insert_eq;
        rewrite ?lookup_insert_ne by done).
  done.
Qed.

Lemma tmp_of_ws root tmp up out :
  tmp_of (ws root tmp up out) =
    <["mriqc_output" := Dir out]> (<["mriqc_upload" := Dir up]> tmp).
Proof. unfold tmp_of, ws. cbn [fs_lookup]. by rewrite lookup_insert_eq. Qed.

Lemma results_not_dir fs :
  dir_at fs RESp = false -> forall es, tmp_of fs !! RESn ≠ Some (Dir es).
Proof.
  unfold dir_at, tmp_of. destruct fs as [d|root]; [done|]. cbn [fs_lookup].
  destruct (root !! "tmp") as [[d|tmp]|]; try done.
  intros Hres es Hes. by rewrite Hes in Hres.
Qed.

(** A confined process run on a filesystem given by its parts changes
    the output workspace's part at most. *)
Lemma confined_ws root tmp up out cmd cp fs' :
  confined exec ->
  exec cmd (ws root tmp up out) = inr (cp, fs') ->
  ∃ out', fs' = ws root tmp up out'.
Proof.
  intros Hconf Hexec. destruct (Hconf _ _ _ _ Hexec) as [->|[out' ->]].
  - by exists out.
  - exists out'. apply ws_put_output.
Qed.

(** Every way the handler can have answered 200 with an attachment. *)
Lemma succeeded req fs name body :
  outcome (run req fs) =
    inr {| status := 200; payload := Attachment name body |} ->
  ∃ upload fa fb fc fd fe fs3 bids_root cp fs4,
    multidict_get (files req) "bids_zip" = Some upload ∧
    FileStorage_bool upload = true ∧
    staged zip_extractall (stream upload) fs fa fb fc fd fe fs3 ∧
    discovered_root fs3 = Some bids_root ∧
    exec (docker_cmd bids_root (label_of req)) fs3 = inr (cp, fs4) ∧
    returncode cp = 0%Z ∧
    outcome (deliver zip_pack st_mtime fs4) =
      inr {| status := 200; payload := Attachment name body |} ∧
    final_fs (run req fs) = final_fs (deliver zip_pack st_mtime fs4).
Proof.
  intros Hok.
  destruct (multidict_get (files req) "bids_zip") as [upload|] eqn:Hget;
    [destruct (FileStorage_bool upload) eqn:Hbool|].
  2,3: rewrite run_mriqc_no_upload in Hok;
       [done | intros u Hu; congruence].
  rewrite (run_mriqc_unfold _ _ _ Hget Hbool) in *. cbn zeta in *.
  set (fa := rmtree_node UPp fs) in *. set (fb := rmtree_node OUTp fa) in *.
  destruct (makedirs_node UPp _) as [e|fc] eqn:H3; [done|].
  destruct (makedirs_node OUTp fc) as [e|fd] eqn:H4; [done|].
  destruct (write_node ZIPp _ fd) as [e|fe] eqn:H5; [done|].
  destruct (extractall_node _ ZIPp UPp fe) as [[e fs']|fs3] eqn:H6; [done|].
  destruct (fs_lookup UPp fs3) as [[d|es]|]; [done| |done].
  destruct (discovered_root fs3) as [bids_root|] eqn:Hroot; [|done].
  destruct (exec _ fs3) as [e|[cp fs4]] eqn:Hexec; [done|].
  destruct (decide (returncode cp ≠ 0%Z)) as [|Hrc]; [done|].
  exists upload, fa, fb, fc, fd, fe, fs3, bids_root, cp, fs4.
  destruct (deliver zip_pack st_mtime fs4) as [[r fs5] t].
  repeat split; try done. by destruct (decide (returncode cp = 0%Z)).
Qed.

(** *** The workspace paths stay free

    Importing the module makes both workspaces, so it succeeds only on
    free workspace paths and leaves them free; a request keeps them free
    when the tool is confined. *)

Lemma makedirs_node_keeps p n n' q :
  makedirs_node p n = inr n' -> dir_at n q = true -> dir_at n' q = true.
Proof.
  revert n n' q. induction p as [|c p IH]; intros n n' q Hmk Hq.
  { destruct n; [done|]. by injection Hmk as <-. }
  destruct n as [d|es]; [done|]. cbn [makedirs_node] in Hmk.
  destruct (makedirs_node p (default (Dir ∅) (es !! c))) as [e|k] eqn:Hk; [done|].
  injection Hmk as <-. destruct q as [|c' q]; [done|].
  unfold dir_at in *. cbn [fs_lookup] in *.
  destruct (decide (c' = c)) as [->|Hne].
  - rewrite lookup_insert_eq.
    destruct (es !! c) as [m|] eqn:Hm; [|done].
    by apply (IH _ _ q Hk).
  - by rewrite lookup_insert_ne.
Qed.

Lemma makedirs_node_made p n n' :
  makedirs_node p n = inr n' -> dir_at n' p = true.
Proof.
  revert n n'. induction p as [|c p IH]; intros n n' Hmk.
  { destruct n; [done|]. by injection Hmk as <-. }
  destruct n as [d|es]; [done|]. cbn [makedirs_node] in Hmk.
  destruct (makedirs_node p (default (Dir ∅) (es !! c))) as [e|k] eqn:Hk; [done|].
  injection Hmk as <-. unfold dir_at. cbn [fs_lookup].
  rewrite lookup_insert_eq. by apply (IH _ _ Hk).
Qed.

Lemma dir_at_free p n : dir_at n p = true -> dir_or_absent p n = true.
Proof.
  revert n. induction p as [|c p IH]; intros n; unfold dir_at; cbn [fs_lookup].
  { by destruct n. }
  destruct n as [d|es]; [done|]. cbn [dir_or_absent].
  destruct (es !! c) as [m|]; [apply IH|done].
Qed.

Lemma module_init_free fs :
  outcome (module_init fs) = inr tt ->
  workspace_free (final_fs (module_init fs)) ∧
  dir_at (final_fs (module_init fs)) (Path UPLOAD_FOLDER) = true ∧
  dir_at (final_fs (module_init fs)) (Path OUTPUT_FOLDER) = true.
Proof.
  unfold module_init, os_makedirs, bind, effect, ret, outcome, final_fs,
    workspace_free.
  destruct (makedirs_node (Path UPLOAD_FOLDER) fs) as [e|fc] eqn:Hup; [done|].
  destruct (makedirs_node (Path OUTPUT_FOLDER) fc) as [e|fd] eqn:Hout; [done|].
  cbn [fst snd]. intros _.
  pose proof (makedirs_node_keeps _ _ _ _ Hout (makedirs_node_made _ _ _ Hup)).
  pose proof (makedirs_node_made _ _ _ Hout).
  auto using dir_at_free.
Qed.

(** Where a regular file has the name of a workspace, the reset cannot
    make the directory and the handler raises. *)
Example reset_blocked :
  outcome (run_mriqc Stub.zip_extractall Stub.zip_pack (Stub.at_time 0) Stub.exec_ok
             (Stub.request_for Stub.dataset [])
             (Dir {[ "tmp" := Dir {[ "mriqc_upload" := File [] ]} ]}))
    = inl FileExistsError.
Proof. vm_compute. reflexivity. Qed.

Lemma run_mriqc_keeps_free req fs :
  confined exec ->
  workspace_free fs ->
  workspace_free (final_fs (run req fs)).
Proof.
  intros Hconf Hfree.
  destruct (multidict_get (files req) "bids_zip") as [upload|] eqn:Hget;
    [destruct (FileStorage_bool upload) eqn:Hbool|].
  2,3: rewrite run_mriqc_no_upload; [done | intros u Hu; congruence].
  rewrite (run_mriqc_unfold _ _ _ Hget Hbool). cbn zeta.
  destruct (reset_free _ Hfree) as (_ & _ & _ & fc & -> & ->).
  rewrite ws_write_zip.
  destruct (extractall_node _ ZIPp UPp _) as [[e fs']|fs3] eqn:Hex.
  { destruct (extractall_node_raises _ _ _ _ _ Hex) as [->|[part ->]];
      [|rewrite ws_put_upload]; apply ws_free. }
  destruct (extractall_node_dir _ _ _ _ Hex) as (es & up & data & _ & _ & _ & _ & ->).
  rewrite ws_put_upload, ws_lookup_upload.
  destruct (discovered_root _) as [bids_root|]; [|apply ws_free].
  destruct (exec _ _) as [e|[cp fs4]] eqn:Hexec; [apply ws_free|].
  destruct (confined_ws _ _ _ _ _ _ _ Hconf Hexec) as [out ->].
  destruct (decide (returncode cp ≠ 0%Z)); [apply ws_free|].
  destruct (deliver zip_pack st_mtime _) as [[r fs5] t] eqn:Hd.
  change fs5 with (final_fs (r, fs5, t)). rewrite <- Hd.
  destruct (tmp_of fs !! RESn) as [[d|held]|] eqn:Hres.
  1,3: rewrite deliver_ws by (intros es'; congruence); apply ws_free.
  unfold deliver, shutil_make_archive, bind, effect, final_fs.
  change (Path ("/tmp/mriqc_results" +:+ "." +:+ "zip")) with RESp.
  change (Path OUTPUT_FOLDER) with OUTp.
  rewrite make_archive_ws.
  unfold ws at 1. cbn [write_node]. rewrite lookup_insert_eq.
  rewrite !lookup_insert_ne by done. rewrite Hres. apply ws_free.
Qed.

(** *** The claims *)

(** C2: a request without a ['bids_zip'] part is answered with status 400
    and the JSON body [{"error": "No BIDS zip provided"}]; the filesystem
    is left as it was and no effect is performed: no reset, no
    extraction, no tool run. *)
Theorem missing_payload_rejected req fs :
  multidict_get (files req) "bids_zip" = None ->
  run req fs =
    (inr {| status := 400; payload := Json [("error", "No BIDS zip provided")] |},
     fs, []).
Proof.
  intros Hget. apply run_mriqc_no_upload. intros upload Hup. congruence.
Qed.

(** C10: a ['bids_zip'] part that is falsy, which for an uploaded part
    means an empty file name, is answered like a missing one: status 400
    with [{"error": "No BIDS zip provided"}] and no effect, the very
    result of any request without the part. *)
Theorem falsy_payload_rejected req upload fs :
  multidict_get (files req) "bids_zip" = Some upload ->
  filename upload = "" ->
  run req fs =
    (inr {| status := 400; payload := Json [("error", "No BIDS zip provided")] |},
     fs, [])
  ∧ forall req', multidict_get (files req') "bids_zip" = None ->
                 run req fs = run req' fs.
Proof.
  intros Hget Hname.
  assert (run req fs = (inr no_zip_response, fs, [])) as Hrun.
  { apply run_mriqc_no_upload. intros u Hu.
    assert (u = upload) as -> by congruence.
    unfold FileStorage_bool. by rewrite Hname. }
  split; [exact Hrun|].
  intros req' Hget'. rewrite Hrun. symmetry.
  apply run_mriqc_no_upload. intros u Hu. congruence.
Qed.

(** C7: when the form has no ['participant_label'], every run of the
    tool gets ["01"] after [--participant_label]. *)
Theorem default_label_is_01 req fs args sh cp fs4 :
  multidict_get (form req) "participant_label" = None ->
  (EvRun args sh cp, fs4) ∈ effects (run req fs) ->
  ∃ bids_root,
    args = ["docker"; "run"; "--rm";
            "-v"; path_str bids_root +:+ ":/data:ro";
            "-v"; "/tmp/mriqc_output:/out";
            "nipreps/mriqc:22.0.6"; "/data"; "/out"; "participant";
            "--participant_label"; "01";
            "-m"; "T1w"; "T2w"; "bold"].
Proof.
  intros Hform Hin.
  destruct (ran_tool _ _ _ _ _ _ Hin)
    as (upload & fa & fb & fc & fd & fe & fs3 & bids_root & _ & _ & _ & _ & -> & _).
  exists bids_root. unfold docker_cmd, label_of. by rewrite Hform.
Qed.

(** C5: whenever the container runtime is run, it is run without a
    shell on exactly this vector: [docker run --rm], the input root, the
    first directory among the children of the upload workspace as the
    extraction left it, mounted read-only at [/data], the output
    workspace mounted at [/out], the image [nipreps/mriqc:22.0.6], the
    two mount points, [participant], [--participant_label] with the
    caller's label, and [-m T1w T2w bold]. *)
Theorem tool_argument_vector req fs args sh cp fs4 :
  (EvRun args sh cp, fs4) ∈ effects (run req fs) ->
  ∃ fs3 bids_root name,
    (EvExtractall "/tmp/mriqc_upload/bids_data.zip" UPLOAD_FOLDER, fs3)
      ∈ effects (run req fs) ∧
    discovered_root fs3 = Some bids_root ∧
    bids_root = Path UPLOAD_FOLDER ++ [name] ∧
    dir_at fs3 bids_root = true ∧
    exec args fs3 = inr (cp, fs4) ∧
    sh = false ∧
    args = ["docker"; "run"; "--rm";
            "-v"; path_str bids_root +:+ ":/data:ro";
            "-v"; "/tmp/mriqc_output:/out";
            "nipreps/mriqc:22.0.6"; "/data"; "/out"; "participant";
            "--participant_label";
            default "01" (multidict_get (form req) "participant_label");
            "-m"; "T1w"; "T2w"; "bold"].
Proof.
  intros Hin.
  destruct (ran_tool_extracted _ _ _ _ _ _ Hin)
    as (fs3 & bids_root & Hex & Hroot & Hargs & Hsh & Hexec).
  destruct (discovered_root_child _ _ Hroot) as [[name Hname] Hdir].
  by exists fs3, bids_root, name.
Qed.

(** C9: the label reaches the runtime as one element of an argument
    vector that is run without a shell.  Whatever string it is, the
    vector has 17 elements and the label is the 13th, as given; and a
    request that differs only in its form fields runs the same vector
    but for that one element. *)
Theorem label_is_one_argument req fs args sh cp fs4 :
  (EvRun args sh cp, fs4) ∈ effects (run req fs) ->
  sh = false ∧
  length args = 17%nat ∧
  args !! 12%nat = Some (default "01" (multidict_get (form req) "participant_label")) ∧
  forall req' args' sh' cp' fs4',
    files req' = files req ->
    (EvRun args' sh' cp', fs4') ∈ effects (run req' fs) ->
    sh' = false ∧
    args' = <[12%nat := default "01" (multidict_get (form req') "participant_label")]> args.
Proof.
  intros Hin.
  destruct (ran_tool _ _ _ _ _ _ Hin)
    as (upload & fa & fb & fc & fd & fe & fs3 & bids_root
        & Hget & _ & Hst & Hroot & -> & -> & _).
  do 3 (split; [done|]).
  intros req' args' sh' cp' fs4' Hfiles Hin'.
  destruct (ran_tool _ _ _ _ _ _ Hin')
    as (upload' & fa' & fb' & fc' & fd' & fe' & fs3' & bids_root'
        & Hget' & _ & Hst' & Hroot' & -> & -> & _).
  split; [done|].
  rewrite Hfiles in Hget'. assert (upload' = upload) as -> by congruence.
  destruct (staged_unique _ _ _ _ _ _ _ _ _ _ _ _ _ _ Hst Hst')
    as (_ & _ & _ & _ & _ & <-).
  assert (bids_root' = bids_root) as -> by congruence.
  done.
Qed.

(** C4: when the tool has run and exited with a nonzero status, the
    response is 500 with the JSON body
    [{"error": "MRIQC failed", "stderr": <captured text>}]; the handler
    stops there: nothing is packed and the filesystem is as the tool
    left it. *)
Theorem tool_failure_reported req fs args sh cp fs4 :
  (EvRun args sh cp, fs4) ∈ effects (run req fs) ->
  returncode cp ≠ 0%Z ->
  outcome (run req fs) =
    inr {| status := 500;
           payload := Json [("error", "MRIQC failed"); ("stderr", stderr cp)] |}
  ∧ final_fs (run req fs) = fs4
  ∧ forall base_name format root_dir fs5,
      (EvMakeArchive base_name format root_dir, fs5) ∉ effects (run req fs).
Proof.
  intros Hin Hrc.
  destruct (ran_tool _ _ _ _ _ _ Hin)
    as (upload & fa & fb & fc & fd & fe & fs3 & bids_root
        & _ & _ & _ & _ & _ & _ & _ & Hrun).
  cbn zeta in Hrun. destruct (decide (returncode cp ≠ 0%Z)); [|done].
  rewrite Hrun. repeat split.
  intros base_name format root_dir fs5 Hpack. trace_absurd Hpack.
Qed.

(** C3: when the extraction has succeeded and no child of the upload
    workspace is a directory, the response is 400 with the JSON body
    [{"error": "No BIDS directory found after unzipping."}], and the
    tool is not run. *)
Theorem no_directory_rejected req fs zp tgt fs3 :
  (EvExtractall zp tgt, fs3) ∈ effects (run req fs) ->
  (forall name k, fs_lookup (Path UPLOAD_FOLDER ++ [name]) fs3 = Some k ->
                  is_Dir k = false) ->
  outcome (run req fs) =
    inr {| status := 400;
           payload := Json [("error", "No BIDS directory found after unzipping.")] |}
  ∧ final_fs (run req fs) = fs3
  ∧ forall args sh cp fs4, (EvRun args sh cp, fs4) ∉ effects (run req fs).
Proof.
  intros Hin Hnodir.
  destruct (extracted _ _ _ _ _ Hin)
    as (upload & fa & fb & fc & fd & fe & es & _ & _ & _ & _ & Hrun).
  rewrite Hrun.
  - repeat split. intros args sh cp fs4 Hran. trace_absurd Hran.
  - apply find_all_false. intros p [name ->]%children_child.
    unfold dir_at. destruct (fs_lookup _ fs3) as [k|] eqn:Hk; [|done].
    apply Hnodir in Hk. by destruct k.
Qed.

(** C6: with a usable payload, and workspace paths that no regular
    file occupies, the first four effects of the handler are the reset:
    both workspaces are removed with all they hold (each path is gone
    afterwards, whether or not it was there), then both are made again,
    and both are empty directories when the reset is done.  Saving and
    extracting come after, so whatever the workspaces hold later is of
    this request. *)
Theorem workspaces_reset_first req upload fs :
  multidict_get (files req) "bids_zip" = Some upload ->
  FileStorage_bool upload = true ->
  workspace_free fs ->
  ∃ fa fb fc fd rest,
    effects (run req fs) =
      (EvRmtree UPLOAD_FOLDER, fa) :: (EvRmtree OUTPUT_FOLDER, fb)
      :: (EvMakedirs UPLOAD_FOLDER, fc) :: (EvMakedirs OUTPUT_FOLDER, fd)
      :: rest ∧
    fs_lookup (Path UPLOAD_FOLDER) fa = None ∧
    fs_lookup (Path UPLOAD_FOLDER) fb = None ∧
    fs_lookup (Path OUTPUT_FOLDER) fb = None ∧
    fs_lookup (Path UPLOAD_FOLDER) fd = Some (Dir ∅) ∧
    fs_lookup (Path OUTPUT_FOLDER) fd = Some (Dir ∅) ∧
    Forall (fun e => is_reset e.1 = false) rest.
Proof.
  intros Hget Hbool Hfree.
  destruct (reset_free _ Hfree) as (Ha & Hb & Hb' & fc & H3 & H4).
  cbn zeta in *.
  exists (rmtree_node UPp fs), (rmtree_node OUTp (rmtree_node UPp fs)), fc,
    (ws (root_of fs) (tmp_of fs) ∅ ∅).
  change (Path UPLOAD_FOLDER) with UPp. change (Path OUTPUT_FOLDER) with OUTp.
  rewrite ws_lookup_upload, ws_lookup_output.
  rewrite (run_mriqc_unfold _ _ _ Hget Hbool). cbn zeta.
  rewrite H3, H4, ws_write_zip.
  destruct (extractall_node _ ZIPp UPp _) as [[e fs']|fs3].
  { eexists. split; [done|]. repeat split; try done. repeat constructor. }
  destruct (fs_lookup UPp fs3) as [[d|es]|].
  1,3: eexists; (split; [done|]); repeat split; try done; repeat constructor.
  destruct (discovered_root fs3) as [bids_root|].
  2: { eexists. split; [done|]. repeat split; try done. repeat constructor. }
  destruct (exec _ fs3) as [e|[cp fs4]].
  { eexists. split; [done|]. repeat split; try done. repeat constructor. }
  destruct (decide (returncode cp ≠ 0%Z)).
  { eexists. split; [done|]. repeat split; try done. repeat constructor. }
  destruct (deliver zip_pack st_mtime fs4) as [[r fs5] t] eqn:Hd.
  pose proof (deliver_effects fs4) as Ht. rewrite Hd in Ht.
  unfold effects, final_fs in Ht |- *. cbn [fst snd app] in Ht |- *.
  eexists. split; [done|]. repeat split; try done.
  destruct Ht as [->| ->]; repeat constructor.
Qed.

(** C1: take a usable payload whose extraction succeeds and leaves
    exactly one directory, [name], among the children of the upload
    workspace, a run of the tool on that directory that exits 0 having
    written [out] to the output workspace, and a results path that is
    not a directory.  Then the output workspace was empty when the tool
    started, the response is 200 with an attachment, and for a decoder
    that inverts the packer on [out] the attachment decodes to [out]: to
    exactly what the tool wrote, which is what the output workspace
    holds in the end. *)
Theorem result_archive_round_trip
    (zip_unpack : bytes -> option (gmap string node))
    req upload fs fa fb fc fd fe fs3 name sub cp out :
  multidict_get (files req) "bids_zip" = Some upload ->
  FileStorage_bool upload = true ->
  staged zip_extractall (stream upload) fs fa fb fc fd fe fs3 ->
  fs_lookup (Path UPLOAD_FOLDER ++ [name]) fs3 = Some (Dir sub) ->
  (forall name' k,
     fs_lookup (Path UPLOAD_FOLDER ++ [name']) fs3 = Some (Dir k) -> name' = name) ->
  exec (docker_cmd (Path UPLOAD_FOLDER ++ [name]) (label_of req)) fs3 =
    inr (cp, fs_put (Path OUTPUT_FOLDER) (Dir out) fs3) ->
  returncode cp = 0%Z ->
  dir_at fs (Path "/tmp/mriqc_results.zip") = false ->
  zip_unpack (zip_pack st_mtime out) = Some out ->
  fs_lookup (Path OUTPUT_FOLDER) fs3 = Some (Dir ∅) ∧
  ∃ data,
    outcome (run req fs) =
      inr {| status := 200; payload := Attachment "mriqc_results.zip" data |} ∧
    zip_unpack data = Some out ∧
    fs_lookup (Path OUTPUT_FOLDER) (final_fs (run req fs)) = Some (Dir out).
Proof.
  intros Hget Hbool Hst Hdir Honly Hexec Hrc Hres Hrt.
  change (Path UPLOAD_FOLDER) with UPp in *.
  change (Path OUTPUT_FOLDER) with OUTp in *.
  change (Path "/tmp/mriqc_results.zip") with RESp in *.
  pose proof (discovered_root_only _ _ _ Hdir Honly) as Hroot.
  rewrite (run_mriqc_staged _ _ _ _ _ _ _ _ _ Hget Hbool Hst). cbn zeta.
  rewrite Hroot, Hexec. rewrite decide_False by (by rewrite Hrc; intros []).
  destruct (staged_shape _ _ _ _ _ _ _ _ Hst) as (_ & up & _ & _ & _ & ->).
  rewrite ws_lookup_output. split; [done|].
  rewrite ws_put_output.
  rewrite (deliver_ws _ _ _ _ (results_not_dir _ Hres)). cbn zeta.
  exists (zip_pack st_mtime out). unfold outcome, final_fs. cbn [fst snd].
  by rewrite ws_lookup_output.
Qed.

(** *** Further properties *)

Lemma makedirs_node_existing p n :
  dir_at n p = true -> makedirs_node p n = inr n.
Proof.
  revert n. induction p as [|c p IH]; intros n; unfold dir_at; cbn [fs_lookup].
  { by destruct n. }
  destruct n as [d|es]; [done|].
  destruct (es !! c) as [m|] eqn:Hm; [|done]. intros Hdir.
  cbn [makedirs_node]. rewrite Hm. cbn [default from_option id].
  rewrite (IH m Hdir). by rewrite insert_id.
Qed.

(** What is written is what is there afterwards. *)
Lemma write_node_lookup p data n n' :
  write_node p data n = inr n' -> fs_lookup p n' = Some (File data).
Proof.
  revert n n'. induction p as [|c p IH]; intros n n' Hw.
  { by destruct n. }
  destruct n as [d|es]; [by destruct p|]. destruct p as [|c' p].
  - cbn [write_node] in Hw.
    assert (n' = Dir (<[c := File data]> es)) as ->
      by (destruct (es !! c) as [[?|?]|]; congruence).
    cbn [fs_lookup]. by rewrite lookup_insert_eq.
  - change (write_node (c :: c' :: p) data (Dir es)) with
      (match es !! c with
       | Some k =>
           match write_node (c' :: p) data k with
           | inr k' => inr (Dir (<[c := k']> es))
           | inl e => inl e
           end
       | None => inl FileNotFoundError
       end) in Hw.
    destruct (es !! c) as [k|]; [|done].
    destruct (write_node (c' :: p) data k) as [e|k'] eqn:Hk; [done|].
    injection Hw as <-. cbn [fs_lookup]. rewrite lookup_insert_eq.
    by apply (IH k).
Qed.

(** The directory of the archive is [/tmp]: where it is missing it is
    made, empty, so that the walk of the output workspace finds what it
    found before. *)
Lemma archive_dir_ready fs4 fs1 :
  (if path_exists ["tmp"] fs4 then inr fs4 else makedirs_node ["tmp"] fs4)
    = inr fs1 ->
  fs1 = fs4 ∨
  ∃ root, fs4 = Dir root ∧ root !! "tmp" = None ∧
          fs1 = Dir (<["tmp" := Dir ∅]> root).
Proof.
  unfold path_exists. destruct fs4 as [d|root]; [done|]. cbn [fs_lookup].
  destruct (root !! "tmp") as [k|] eqn:Htmp; [left; congruence|].
  cbn [makedirs_node]. rewrite Htmp. cbn [default from_option id makedirs_node].
  intros ?. right. exists root. split; [done|]. split; [done|]. congruence.
Qed.

Lemma archive_dir_walk fs4 fs1 :
  (if path_exists ["tmp"] fs4 then inr fs4 else makedirs_node ["tmp"] fs4)
    = inr fs1 ->
  walk OUTp fs1 = walk OUTp fs4.
Proof.
  intros [->|(root & -> & Htmp & ->)]%archive_dir_ready; [done|].
  unfold walk. cbn [fs_lookup]. rewrite lookup_insert_eq, Htmp.
  by rewrite lookup_empty.
Qed.

(** Steps 7 and 8, when they answer: what the walk of the output
    workspace finds is packed, written to the results path and sent from
    there. *)
Lemma deliver_inv fs4 r :
  outcome (deliver zip_pack st_mtime fs4) = inr r ->
  let data := zip_pack st_mtime (walk OUTp fs4) in
  r = {| status := 200; payload := Attachment "mriqc_results.zip" data |} ∧
  fs_lookup RESp (final_fs (deliver zip_pack st_mtime fs4)) = Some (File data).
Proof.
  unfold deliver, shutil_make_archive, bind, effect, ret, raise, send_file,
    make_archive_node, outcome, final_fs.
  change (Path ("/tmp/mriqc_results" +:+ "." +:+ "zip")) with RESp.
  change (Path "/tmp/mriqc_results.zip") with RESp.
  change (Path OUTPUT_FOLDER) with OUTp.
  rewrite decide_True by done. change (removelast RESp) with ["tmp"].
  destruct (if path_exists ["tmp"] fs4 then _ else _) as [e|fs1] eqn:Hdir; [done|].
  rewrite (archive_dir_walk _ _ Hdir).
  destruct (write_node RESp _ fs1) as [e|fs5] eqn:Hw; [done|].
  unfold read_node. rewrite (write_node_lookup _ _ _ _ Hw).
  unfold ret. cbn [fst snd]. intros Hr. cbn zeta.
  change (default "" (last RESp)) with "mriqc_results.zip" in Hr.
  split; [congruence|by apply (write_node_lookup _ _ _ _ Hw)].
Qed.

(** Every way the handler can have answered. *)
Lemma answered req fs r :
  outcome (run req fs) = inr r ->
  (r = no_zip_response ∧
   forall upload, multidict_get (files req) "bids_zip" = Some upload ->
                  FileStorage_bool upload = false) ∨
  ∃ upload fa fb fc fd fe fs3,
    multidict_get (files req) "bids_zip" = Some upload ∧
    FileStorage_bool upload = true ∧
    staged zip_extractall (stream upload) fs fa fb fc fd fe fs3 ∧
    ((discovered_root fs3 = None ∧ r = no_dir_response ∧
      final_fs (run req fs) = fs3) ∨
     ∃ bids_root cp fs4,
       discovered_root fs3 = Some bids_root ∧
       exec (docker_cmd bids_root (label_of req)) fs3 = inr (cp, fs4) ∧
       ((returncode cp ≠ 0%Z ∧ r = failed_response (stderr cp) ∧
         final_fs (run req fs) = fs4) ∨
        (returncode cp = 0%Z ∧
         outcome (deliver zip_pack st_mtime fs4) = inr r ∧
         final_fs (run req fs) = final_fs (deliver zip_pack st_mtime fs4)))).
Proof.
  intros Hok.
  destruct (multidict_get (files req) "bids_zip") as [upload|] eqn:Hget;
    [destruct (FileStorage_bool upload) eqn:Hbool|].
  2,3: rewrite run_mriqc_no_upload in Hok by (intros u Hu; congruence);
       left; split; [by injection Hok | intros u Hu; congruence].
  right.
  rewrite (run_mriqc_unfold _ _ _ Hget Hbool) in *. cbn zeta in *.
  set (fa := rmtree_node UPp fs) in *. set (fb := rmtree_node OUTp fa) in *.
  destruct (makedirs_node UPp _) as [e|fc] eqn:H3; [done|].
  destruct (makedirs_node OUTp fc) as [e|fd] eqn:H4; [done|].
  destruct (write_node ZIPp _ fd) as [e|fe] eqn:H5; [done|].
  destruct (extractall_node _ ZIPp UPp fe) as [[e fs']|fs3] eqn:H6; [done|].
  exists upload, fa, fb, fc, fd, fe, fs3. do 3 (split; [done|]).
  destruct (fs_lookup UPp fs3) as [[d|es]|]; [done| |done].
  destruct (discovered_root fs3) as [bids_root|] eqn:Hroot.
  2: { left. by injection Hok as <-. }
  right. destruct (exec _ fs3) as [e|[cp fs4]] eqn:Hexec; [done|].
  exists bids_root, cp, fs4. do 2 (split; [done|]).
  destruct (decide (returncode cp ≠ 0%Z)) as [Hrc|Hrc].
  { left. by injection Hok as <-. }
  right. destruct (deliver zip_pack st_mtime fs4) as [[r' fs5] t].
  repeat split; try done. by destruct (decide (returncode cp = 0%Z)).
Qed.

(** Importing the module where both workspaces exist changes nothing:
    the directories and all they hold stay as they are. *)
Theorem module_init_keeps fs :
  dir_at fs (Path UPLOAD_FOLDER) = true ->
  dir_at fs (Path OUTPUT_FOLDER) = true ->
  outcome (module_init fs) = inr tt ∧ final_fs (module_init fs) = fs.
Proof.
  intros Hup Hout.
  unfold module_init, os_makedirs, bind, effect, ret, outcome, final_fs.
  rewrite (makedirs_node_existing _ _ Hup), (makedirs_node_existing _ _ Hout).
  done.
Qed.

(** An upload the extraction fails on: the exception leaves the handler
    after the reset and the save.  The tool is not run, the upload
    workspace holds what the failing extraction left there (the saved
    upload and the members extracted before the failure), and the output
    workspace is empty. *)
Theorem corrupt_archive_raises req upload fs e part :
  multidict_get (files req) "bids_zip" = Some upload ->
  FileStorage_bool upload = true ->
  workspace_free fs ->
  zip_extractall (stream upload) {[ "bids_data.zip" := File (stream upload) ]}
    = inl (e, part) ->
  outcome (run req fs) = inl e ∧
  fs_lookup (Path UPLOAD_FOLDER) (final_fs (run req fs)) = Some (Dir part) ∧
  fs_lookup (Path OUTPUT_FOLDER) (final_fs (run req fs)) = Some (Dir ∅) ∧
  forall args sh cp fs4, (EvRun args sh cp, fs4) ∉ effects (run req fs).
Proof.
  intros Hget Hbool Hfree Hzip.
  rewrite (run_mriqc_unfold _ _ _ Hget Hbool). cbn zeta.
  destruct (reset_free _ Hfree) as (_ & _ & _ & fc & -> & ->).
  rewrite ws_write_zip.
  rewrite (ws_extract_raises _ _ _ _ (stream upload) e part)
    by (done || apply lookup_singleton_eq).
  unfold outcome, final_fs. cbn [fst snd].
  change (Path UPLOAD_FOLDER) with UPp. change (Path OUTPUT_FOLDER) with OUTp.
  rewrite ws_lookup_upload, ws_lookup_output. repeat split.
  intros args sh cp fs4 Hran. trace_absurd Hran.
Qed.

(** A runtime that cannot be started: the exception of [subprocess.run]
    leaves the handler, after steps 2 to 4 and with the filesystem as the
    extraction left it; nothing is packed. *)
Theorem tool_not_started_raises req upload fs fa fb fc fd fe fs3 bids_root e :
  multidict_get (files req) "bids_zip" = Some upload ->
  FileStorage_bool upload = true ->
  staged zip_extractall (stream upload) fs fa fb fc fd fe fs3 ->
  discovered_root fs3 = Some bids_root ->
  exec (docker_cmd bids_root (label_of req)) fs3 = inl e ->
  outcome (run req fs) = inl e ∧
  final_fs (run req fs) = fs3 ∧
  forall base_name format root_dir fs5,
    (EvMakeArchive base_name format root_dir, fs5) ∉ effects (run req fs).
Proof.
  intros Hget Hbool Hst Hroot Hexec.
  rewrite (run_mriqc_staged _ _ _ _ _ _ _ _ _ Hget Hbool Hst). cbn zeta.
  rewrite Hroot, Hexec. repeat split.
  intros base_name format root_dir fs5 Hpack. unfold staging in Hpack.
  trace_absurd Hpack.
Qed.

(** The tool is run at most once in a request: a run comes right after
    the six effects of steps 2 to 4, and only the packing can follow. *)
Theorem tool_runs_once req fs args sh cp fs4 :
  (EvRun args sh cp, fs4) ∈ effects (run req fs) ->
  ∃ data fa fb fc fd fe fs3 after,
    effects (run req fs) =
      staging data fa fb fc fd fe fs3 ++ (EvRun args sh cp, fs4) :: after ∧
    (after = [] ∨
     ∃ fs5, after = [(EvMakeArchive "/tmp/mriqc_results" "zip" OUTPUT_FOLDER, fs5)]).
Proof.
  intros Hin.
  destruct (ran_tool _ _ _ _ _ _ Hin)
    as (upload & fa & fb & fc & fd & fe & fs3 & bids_root
        & _ & _ & _ & _ & _ & _ & _ & Hrun).
  exists (stream upload), fa, fb, fc, fd, fe, fs3. cbn zeta in Hrun. rewrite Hrun.
  destruct (decide (returncode cp ≠ 0%Z)).
  - exists []. split; [done|by left].
  - exists (effects (deliver zip_pack st_mtime fs4)). unfold effects at 1. cbn [snd].
    split; [by rewrite <- app_assoc|].
    destruct (deliver_effects fs4) as [->| ->]; [by left|right; eauto].
Qed.

(** Whatever the tool does to the filesystem, an answer with status 200
    comes after a run of the tool that exited with status 0, and carries
    the archive of what the walk of the output workspace found when the
    tool exited: the entries of the directory, with their modification
    times, and no member where the tool left no directory there.  It is
    sent under the name [mriqc_results.zip], and those bytes are what the
    results path holds afterwards. *)
Theorem attachment_is_packed_output req fs name data :
  outcome (run req fs) =
    inr {| status := 200; payload := Attachment name data |} ->
  ∃ args cp fs4,
    (EvRun args false cp, fs4) ∈ effects (run req fs) ∧
    returncode cp = 0%Z ∧
    data = zip_pack st_mtime (walk (Path OUTPUT_FOLDER) fs4) ∧
    name = "mriqc_results.zip" ∧
    fs_lookup (Path "/tmp/mriqc_results.zip") (final_fs (run req fs))
      = Some (File data).
Proof.
  intros Hok.
  destruct (succeeded _ _ _ _ Hok)
    as (upload & fa & fb & fc & fd & fe & fs3 & bids_root & cp & fs4
        & Hget & Hbool & Hst & Hroot & Hexec & Hrc & Hdel & Hfin).
  destruct (deliver_inv _ _ Hdel) as (Hr & Hfile). cbn zeta in Hr, Hfile.
  injection Hr as -> ->.
  exists (docker_cmd bids_root (label_of req)), cp, fs4.
  rewrite Hfin. repeat split; try done.
  rewrite (run_mriqc_staged _ _ _ _ _ _ _ _ _ Hget Hbool Hst). cbn zeta.
  rewrite Hroot, Hexec. rewrite decide_False by (by rewrite Hrc; intros []).
  unfold effects, staging. cbn [snd app].
  do 6 apply list_elem_of_further. apply list_elem_of_here.
Qed.

(** The handler has four answers and no other: the two 400s, the 500
    with the tool's error text, and the 200 with the attachment. *)
Theorem response_shapes req fs r :
  outcome (run req fs) = inr r ->
  r = {| status := 400; payload := Json [("error", "No BIDS zip provided")] |} ∨
  r = {| status := 400;
         payload := Json [("error", "No BIDS directory found after unzipping.")] |} ∨
  (∃ err, r = {| status := 500;
                 payload := Json [("error", "MRIQC failed"); ("stderr", err)] |}) ∨
  (∃ data, r = {| status := 200;
                  payload := Attachment "mriqc_results.zip" data |}).
Proof.
  intros Hok.
  destruct (answered _ _ _ Hok)
    as [[-> _] | (upload & fa & fb & fc & fd & fe & fs3 & _ & _ & _
                  & [(_ & -> & _) | (bids_root & cp & fs4 & _ & _
                     & [(_ & -> & _) | (_ & Hdel & _)])])].
  - by left.
  - right. by left.
  - right. right. left. by eexists.
  - right. right. right.
    destruct (deliver_inv _ _ Hdel) as (-> & _). by eexists.
Qed.


(** A run of the tool that steps 2 to 4 lead to is in the log. *)
Lemma staged_run_logged req upload fs fa fb fc fd fe fs3 bids_root cp fs4 :
  multidict_get (files req) "bids_zip" = Some upload ->
  FileStorage_bool upload = true ->
  staged zip_extractall (stream upload) fs fa fb fc fd fe fs3 ->
  discovered_root fs3 = Some bids_root ->
  exec (docker_cmd bids_root (label_of req)) fs3 = inr (cp, fs4) ->
  (EvRun (docker_cmd bids_root (label_of req)) false cp, fs4)
    ∈ effects (run req fs).
Proof.
  intros Hget Hbool Hst Hroot Hexec.
  rewrite (run_mriqc_staged _ _ _ _ _ _ _ _ _ Hget Hbool Hst). cbn zeta.
  rewrite Hroot, Hexec. unfold staging.
  destruct (decide (returncode cp ≠ 0%Z)); unfold effects; cbn [snd app];
    do 6 apply list_elem_of_further; apply list_elem_of_here.
Qed.

(** *** What the handler leaves alone *)

Lemma outside_kept_refl fs : outside_kept fs fs.
Proof. by split. Qed.

Lemma outside_kept_trans fs1 fs2 fs3 :
  outside_kept fs1 fs2 -> outside_kept fs2 fs3 -> outside_kept fs1 fs3.
Proof.
  intros [Hr Ht] [Hr' Ht']. split; intros name Hname.
  - by rewrite Hr', Hr.
  - by rewrite Ht', Ht.
Qed.

(** Replacing the entries of [/tmp] by entries that differ under the
    program's names only. *)
Lemma outside_kept_tmp root tmp' :
  (forall name, name ∉ workspace_names ->
                tmp' !! name = tmp_of (Dir root) !! name) ->
  outside_kept (Dir root) (Dir (<["tmp" := Dir tmp']> root)).
Proof.
  intros Hsame. split; intros name Hname.
  - cbn [root_of]. by rewrite lookup_insert_ne.
  - rewrite <- (Hsame name Hname). unfold tmp_of at 1. cbn [fs_lookup].
    by rewrite lookup_insert_eq.
Qed.

Lemma not_workspace_name name c :
  c ∈ workspace_names -> name ∉ workspace_names -> c ≠ name.
Proof. by intros Hc Hname ->. Qed.

Lemma rmtree_node_kept c fs :
  c ∈ workspace_names -> outside_kept fs (rmtree_node ["tmp"; c] fs).
Proof.
  intros Hc. destruct fs as [d|root]; [apply outside_kept_refl|].
  cbn [rmtree_node].
  destruct (root !! "tmp") as [[d|tmp]|] eqn:Htmp; [| |apply outside_kept_refl].
  { cbn [rmtree_node]. rewrite insert_id by done. apply outside_kept_refl. }
  cbn [rmtree_node].
  destruct (tmp !! c) as [[d|es]|].
  1,3: rewrite insert_id by done; apply outside_kept_refl.
  apply outside_kept_tmp. intros name Hname.
  unfold tmp_of. cbn [fs_lookup]. rewrite Htmp.
  apply lookup_delete_ne. by apply not_workspace_name.
Qed.

Lemma fs_put_kept c new fs :
  c ∈ workspace_names -> outside_kept fs (fs_put ["tmp"; c] new fs).
Proof.
  intros Hc. destruct fs as [d|root]; [apply outside_kept_refl|].
  cbn [fs_put].
  destruct (root !! "tmp") as [[d|tmp]|] eqn:Htmp; [| |apply outside_kept_refl].
  { rewrite insert_id by done. apply outside_kept_refl. }
  apply outside_kept_tmp. intros name Hname.
  unfold tmp_of. cbn [fs_lookup]. rewrite Htmp.
  apply lookup_insert_ne. by apply not_workspace_name.
Qed.

Lemma makedirs_node_kept c fs fs' :
  c ∈ workspace_names ->
  makedirs_node ["tmp"; c] fs = inr fs' -> outside_kept fs fs'.
Proof.
  intros Hc Hmk. destruct fs as [d|root]; [done|].
  cbn [makedirs_node] in Hmk.
  destruct (default (Dir ∅) (root !! "tmp")) as [d|tmp] eqn:Htmp; [done|].
  destruct (default (Dir ∅) (tmp !! c)) as [d|es]; [done|].
  injection Hmk as <-. apply outside_kept_tmp. intros name Hname.
  rewrite lookup_insert_ne by (by apply not_workspace_name).
  unfold tmp_of. cbn [fs_lookup].
  destruct (root !! "tmp") as [[d|tmp0]|]; cbn [default from_option id] in Htmp;
    simplify_eq; done.
Qed.

Lemma write_node_kept c rest data fs fs' :
  c ∈ workspace_names ->
  write_node ("tmp" :: c :: rest) data fs = inr fs' -> outside_kept fs fs'.
Proof.
  intros Hc Hw. destruct fs as [d|root]; [done|].
  change (write_node ("tmp" :: c :: rest) data (Dir root)) with
    (match root !! "tmp" with
     | Some k =>
         match write_node (c :: rest) data k with
         | inr k' => inr (Dir (<["tmp" := k']> root))
         | inl e => inl e
         end
     | None => inl FileNotFoundError
     end) in Hw.
  destruct (root !! "tmp") as [k|] eqn:Htmp; [|done].
  destruct (write_node (c :: rest) data k) as [e|k'] eqn:Hk; [done|].
  injection Hw as <-. destruct k as [d|tmp]; [by destruct rest|].
  assert (∃ m, k' = Dir (<[c := m]> tmp)) as [m ->].
  { destruct rest as [|x rest].
    - cbn [write_node] in Hk.
      destruct (tmp !! c) as [[?|?]|]; simplify_eq; eauto.
    - change (write_node (c :: x :: rest) data (Dir tmp)) with
        (match tmp !! c with
         | Some k =>
             match write_node (x :: rest) data k with
             | inr k' => inr (Dir (<[c := k']> tmp))
             | inl e => inl e
             end
         | None => inl FileNotFoundError
         end) in Hk.
      destruct (tmp !! c) as [k|]; [|done].
      destruct (write_node (x :: rest) data k) as [e|k'']; simplify_eq; eauto. }
  apply outside_kept_tmp. intros name Hname.
  rewrite lookup_insert_ne by (by apply not_workspace_name).
  unfold tmp_of. cbn [fs_lookup]. by rewrite Htmp.
Qed.

Lemma deliver_kept fs4 :
  outside_kept fs4 (final_fs (deliver zip_pack st_mtime fs4)).
Proof.
  unfold deliver, shutil_make_archive, bind, effect, make_archive_node, final_fs.
  change (Path ("/tmp/mriqc_results" +:+ "." +:+ "zip")) with RESp.
  rewrite decide_True by done. change (removelast RESp) with ["tmp"].
  destruct (if path_exists ["tmp"] fs4 then _ else _) as [e|fs1] eqn:Hdir;
    [apply outside_kept_refl|].
  destruct (write_node RESp _ fs1) as [e|fs5] eqn:Hw;
    [apply outside_kept_refl|].
  unfold ret, send_file, raise.
  assert (outside_kept fs4 fs1) as Hmade.
  { destruct (archive_dir_ready _ _ Hdir) as [->|(root & -> & Htmp & ->)];
      [apply outside_kept_refl|].
    apply outside_kept_tmp. intros name _.
    unfold tmp_of. cbn [fs_lookup]. by rewrite Htmp. }
  assert (outside_kept fs1 fs5) as Hkept.
  { apply (write_node_kept RESn [] _ _ _) with (2 := Hw).
    do 2 apply list_elem_of_further. apply list_elem_of_here. }
  destruct (read_node _ fs5); by apply (outside_kept_trans _ fs1).
Qed.

(** A request leaves alone whatever is not under the three names of the
    program in [/tmp]: the entries of the root other than [tmp] and the
    entries of [/tmp] other than the two workspaces and the results
    archive are the same afterwards, however the request ends, when the
    tool is confined. *)
Theorem run_mriqc_frame req fs :
  confined exec ->
  outside_kept fs (final_fs (run req fs)).
Proof.
  intros Hconf.
  assert ("mriqc_upload" ∈ workspace_names) as Hup
    by apply list_elem_of_here.
  assert ("mriqc_output" ∈ workspace_names) as Hout
    by (apply list_elem_of_further, list_elem_of_here).
  destruct (multidict_get (files req) "bids_zip") as [upload|] eqn:Hget;
    [destruct (FileStorage_bool upload) eqn:Hbool|].
  2,3: rewrite run_mriqc_no_upload by (intros u Hu; congruence);
       apply outside_kept_refl.
  rewrite (run_mriqc_unfold _ _ _ Hget Hbool). cbn zeta.
  set (fa := rmtree_node UPp fs). set (fb := rmtree_node OUTp fa).
  assert (outside_kept fs fb) as Kb.
  { apply (outside_kept_trans _ fa); by apply rmtree_node_kept. }
  destruct (makedirs_node UPp fb) as [e|fc] eqn:H3; [done|].
  assert (outside_kept fs fc) as Kc
    by (apply (outside_kept_trans _ fb); [done|];
        by apply (makedirs_node_kept "mriqc_upload")).
  destruct (makedirs_node OUTp fc) as [e|fd] eqn:H4; [done|].
  assert (outside_kept fs fd) as Kd
    by (apply (outside_kept_trans _ fc); [done|];
        by apply (makedirs_node_kept "mriqc_output")).
  destruct (write_node ZIPp _ fd) as [e|fe] eqn:H5; [done|].
  assert (outside_kept fs fe) as Ke
    by (apply (outside_kept_trans _ fd); [done|];
        by apply (write_node_kept "mriqc_upload" [ZIPn] (stream upload))).
  destruct (extractall_node _ ZIPp UPp fe) as [[e fs']|fs3] eqn:H6.
  { destruct (extractall_node_raises _ _ _ _ _ H6) as [->|[part ->]]; [done|].
    apply (outside_kept_trans _ fe); [done|by apply fs_put_kept]. }
  assert (outside_kept fs fs3) as K3.
  { destruct (extractall_node_dir _ _ _ _ H6) as (es & es' & data & _ & _ & _ & _ & ->).
    apply (outside_kept_trans _ fe); [done|by apply fs_put_kept]. }
  destruct (fs_lookup UPp fs3) as [[d|es]|]; [done| |done].
  destruct (discovered_root fs3) as [bids_root|]; [|done].
  destruct (exec _ fs3) as [e|[cp fs4]] eqn:Hexec; [done|].
  assert (outside_kept fs fs4) as K4.
  { destruct (Hconf _ _ _ _ Hexec) as [->|[out ->]]; [done|].
    apply (outside_kept_trans _ fs3); [done|by apply fs_put_kept]. }
  destruct (decide (returncode cp ≠ 0%Z)); [done|].
  pose proof (deliver_kept fs4) as K5.
  destruct (deliver zip_pack st_mtime fs4) as [[r fs5] t].
  by apply (outside_kept_trans _ fs4).
Qed.

End Facts.

(** * The same request, twice

    The second request runs later than the first: the members of its
    archive have modification times of their own. *)

Section Reissued.

Variable zip_extractall :
  bytes -> gmap string node -> exn * gmap string node + gmap string node.
Variable zip_pack : (path -> Z) -> gmap string node -> bytes.
Variable exec : list string -> node -> exn + (CompletedProcess * node).

(** The modification times the first request reads, and those the
    second reads. *)
Variables st_mtime st_mtime' : path -> Z.

#[local] Abbreviation run := (run_mriqc zip_extractall zip_pack st_mtime exec).
#[local] Abbreviation UPp := ["tmp"; "mriqc_upload"] (only parsing).
#[local] Abbreviation OUTp := ["tmp"; "mriqc_output"] (only parsing).
#[local] Abbreviation RESn := "mriqc_results.zip" (only parsing).

(** C8, amended: take a tool that is confined to the output workspace
    and whose result is a function of its arguments and of what the
    workspaces hold, a request answered 200 with an attachment, whose
    extraction left at most one directory among the children of the upload
    workspace, and [out], what the output workspace holds when the request
    is done.  Issued again on the filesystem the first run left, when the
    members have the modification times [st_mtime'], the request is
    answered 200 with an attachment again.  Each attachment is the
    archive of [out] with the modification times of its own request, so a
    decoder that inverts the packer on [out] decodes both to [out]: the
    two answers hold the same files.  Their bytes are the same only as far
    as the packer makes them so from different modification times. *)
Theorem repeated_request_same_files
    (zip_unpack : bytes -> option (gmap string node))
    req fs zp tgt fs3 name data out :
  confined exec ->
  hermetic exec ->
  outcome (run req fs) =
    inr {| status := 200; payload := Attachment name data |} ->
  (EvExtractall zp tgt, fs3) ∈ effects (run req fs) ->
  (forall a b ka kb,
     fs_lookup (Path UPLOAD_FOLDER ++ [a]) fs3 = Some (Dir ka) ->
     fs_lookup (Path UPLOAD_FOLDER ++ [b]) fs3 = Some (Dir kb) -> a = b) ->
  fs_lookup (Path OUTPUT_FOLDER) (final_fs (run req fs)) = Some (Dir out) ->
  zip_unpack (zip_pack st_mtime out) = Some out ->
  zip_unpack (zip_pack st_mtime' out) = Some out ->
  let again :=
    run_mriqc zip_extractall zip_pack st_mtime' exec req (final_fs (run req fs)) in
  ∃ data',
    outcome again =
      inr {| status := 200; payload := Attachment name data' |} ∧
    zip_unpack data = Some out ∧
    zip_unpack data' = Some out ∧
    data = zip_pack st_mtime out ∧
    data' = zip_pack st_mtime' out ∧
    fs_lookup (Path OUTPUT_FOLDER) (final_fs again) = Some (Dir out).
Proof.
  intros Hconf Hherm Hok Hex Hone Hout Hrt Hrt'.
  destruct (succeeded _ _ _ _ _ _ _ _ Hok)
    as (upload & fa & fb & fc & fd & fe & fs3_ & bids_root & cp & fs4
        & Hget & Hbool & Hst & Hroot & Hexec & Hrc & Hdel & Hfin).
  destruct (extracted _ _ _ _ _ _ _ _ _ Hex)
    as (upload' & fa' & fb' & fc' & fd' & fe' & es & Hget' & _ & Hst' & _ & _).
  assert (upload' = upload) as -> by congruence.
  destruct (staged_unique _ _ _ _ _ _ _ _ _ _ _ _ _ _ _ Hst Hst')
    as (_ & _ & _ & _ & _ & ->).
  clear Hst' Hget' fa' fb' fc' fd' fe' es.
  destruct (staged_shape _ _ _ _ _ _ _ _ _ Hst) as (_ & up & Hzip & _ & _ & ->).
  destruct (confined_ws _ _ _ _ _ _ _ _ Hconf Hexec) as [out0 ->].
  set (root := root_of fs) in *. set (tmp := tmp_of fs) in *.
  assert (forall es, tmp !! RESn ≠ Some (Dir es)) as Hres.
  { intros es Hes.
    by rewrite (deliver_ws_blocked _ _ _ _ _ _ _ Hes) in Hdel. }
  rewrite (deliver_ws _ _ _ _ _ _ Hres) in Hdel, Hfin. cbn zeta in *.
  unfold outcome in Hdel. unfold final_fs at 2 in Hfin. cbn [fst snd] in Hdel, Hfin.
  rewrite Hfin in Hout |- *. clear Hfin.
  change (Path OUTPUT_FOLDER) with OUTp in *.
  change (Path UPLOAD_FOLDER) with UPp in *.
  rewrite ws_lookup_output in Hout. assert (out0 = out) as -> by congruence.
  assert (name = "mriqc_results.zip" ∧ data = zip_pack st_mtime out)
    as [-> ->] by (split; congruence).
  set (fs5 := ws root (<[RESn := File (zip_pack st_mtime out)]> tmp) up out).
  destruct (staged_intro zip_extractall (stream upload) fs5 up (ws_free _ _ _ _) Hzip)
    as (fa' & fb' & fc' & fd' & fe' & Hst').
  rewrite (run_mriqc_staged zip_extractall zip_pack st_mtime' exec
             _ _ _ _ _ _ _ _ _ Hget Hbool Hst'). cbn zeta.
  set (fs3' := ws (root_of fs5) (tmp_of fs5) up ∅) in *.
  destruct (discovered_root_child _ _ Hroot) as [[dir ->] Hdir].
  change (Path UPLOAD_FOLDER) with UPp in *.
  assert (forall c, fs_lookup (UPp ++ [c]) fs3' =
                    fs_lookup (UPp ++ [c]) (ws root tmp up ∅)) as Hchild.
  { intros c. unfold fs3'. by rewrite !fs_lookup_child, !ws_lookup_upload. }
  unfold dir_at in Hdir.
  destruct (fs_lookup (UPp ++ [dir]) (ws root tmp up ∅)) as [[d|sub]|] eqn:Hsub;
    try done.
  rewrite (discovered_root_only fs3' dir sub).
  2: by rewrite Hchild.
  2: { intros c k Hc. rewrite Hchild in Hc. exact (Hone _ _ _ _ Hc Hsub). }
  assert (fs_lookup (Path UPLOAD_FOLDER) (ws root tmp up ∅) =
          fs_lookup (Path UPLOAD_FOLDER) fs3') as Hsame_up.
  { change (Path UPLOAD_FOLDER) with UPp. unfold fs3'.
    by rewrite !ws_lookup_upload. }
  assert (fs_lookup (Path OUTPUT_FOLDER) (ws root tmp up ∅) =
          fs_lookup (Path OUTPUT_FOLDER) fs3') as Hsame_out.
  { change (Path OUTPUT_FOLDER) with OUTp. unfold fs3'.
    by rewrite !ws_lookup_output. }
  destruct (Hherm _ _ _ _ _ Hsame_up Hsame_out Hexec)
    as (fs4' & Hexec' & Hout').
  rewrite Hexec'. rewrite decide_False by (by rewrite Hrc; intros []).
  destruct (confined_ws _ _ _ _ _ _ _ _ Hconf Hexec') as [out' ->].
  change (Path OUTPUT_FOLDER) with OUTp in Hout'.
  rewrite !ws_lookup_output in Hout'. injection Hout' as ->.
  rewrite deliver_ws.
  2: { intros es. unfold fs5. rewrite tmp_of_ws.
       rewrite !lookup_insert_ne by done. by rewrite lookup_insert_eq. }
  cbn zeta. unfold outcome, final_fs. cbn [fst snd].
  exists (zip_pack st_mtime' out). rewrite ws_lookup_output. done.
Qed.

End Reissued.

(** * The claims on the stand-ins *)

Section Witnesses.

#[local] Abbreviation run_ok := (run_mriqc Stub.zip_extractall Stub.zip_pack (Stub.at_time 0) Stub.exec_ok).
#[local] Abbreviation run_boom := (run_mriqc Stub.zip_extractall Stub.zip_pack (Stub.at_time 0) Stub.exec_boom).

(** The import succeeds on a machine with an empty [/tmp], and fails
    where a regular file has the name of a workspace. *)
Example module_init_fresh : outcome (module_init Stub.fresh) = inr tt.
Proof. vm_compute. reflexivity. Qed.

Example module_init_blocked :
  outcome (module_init (Dir {[ "tmp" := Dir {[ "mriqc_upload" := File [] ]} ]}))
    = inl FileExistsError.
Proof. vm_compute. reflexivity. Qed.

(** The stand-in codec decodes what it packs, on the datasets used
    here. *)
Example zip_round_trip_dataset :
  Stub.zip_unpack (Stub.zip_pack (Stub.at_time 0) Stub.dataset) = Some Stub.dataset.
Proof. vm_compute. reflexivity. Qed.

(** The stand-in for a successful run is confined and hermetic. *)
Lemma exec_ok_confined : confined Stub.exec_ok.
Proof.
  intros cmd fs cp fs'. unfold Stub.exec_ok.
  destruct (fs_lookup (Path OUTPUT_FOLDER) fs) as [[d|out]|];
    intros ?; simplify_eq; eauto.
Qed.

Lemma exec_ok_hermetic : hermetic Stub.exec_ok.
Proof.
  intros cmd fsA fsB cp fsA' _ Hout. unfold Stub.exec_ok. rewrite <- Hout.
  destruct (fs_lookup (Path OUTPUT_FOLDER) fsA) as [[d|out]|] eqn:HA;
    intros ?; simplify_eq; eexists; (split; [done|]); try congruence.
  rewrite (fs_lookup_put _ _ fsA) by (by rewrite HA).
  by rewrite (fs_lookup_put _ _ fsB) by (by rewrite <- Hout).
Qed.

#[local] Abbreviation plain := (Stub.request_for Stub.dataset []) (only parsing).
#[local] Abbreviation hostile :=
  (Stub.request_for Stub.dataset [("participant_label", "02; rm -rf /")])
  (only parsing).

Ltac seventh_effect :=
  vm_compute; do 6 apply list_elem_of_further; apply list_elem_of_here.

(** C2 on a request that carries a label and no file. *)
Lemma missing_payload_rejected_witness :
  let req := {| files := []; form := [("participant_label", "02")] |} in
  multidict_get (files req) "bids_zip" = None ∧
  run_ok req Stub.used =
    (inr {| status := 400; payload := Json [("error", "No BIDS zip provided")] |},
     Stub.used, []).
Proof.
  split; [reflexivity|].
  apply (missing_payload_rejected Stub.zip_extractall Stub.zip_pack (Stub.at_time 0) Stub.exec_ok).
  reflexivity.
Defined.

(** C10 on a part whose file name is empty. *)
Lemma falsy_payload_rejected_witness :
  let unnamed := {| filename := ""; stream := Stub.zip_pack (Stub.at_time 0) Stub.dataset |} in
  let req := {| files := [("bids_zip", unnamed)]; form := [] |} in
  run_ok req Stub.used =
    (inr {| status := 400; payload := Json [("error", "No BIDS zip provided")] |},
     Stub.used, [])
  ∧ forall req', multidict_get (files req') "bids_zip" = None ->
                 run_ok req Stub.used = run_ok req' Stub.used.
Proof.
  apply (falsy_payload_rejected Stub.zip_extractall Stub.zip_pack (Stub.at_time 0) Stub.exec_ok
           _ {| filename := ""; stream := Stub.zip_pack (Stub.at_time 0) Stub.dataset |});
    reflexivity.
Defined.

(** C7 on a request without a label. *)
Lemma default_label_is_01_witness :
  multidict_get (form plain) "participant_label" = None ∧
  (EvRun (Stub.argv "01") false Stub.exit_0, Stub.reported_fs Stub.dataset "01")
    ∈ effects (run_ok plain Stub.used) ∧
  ∃ bids_root,
    Stub.argv "01" =
      ["docker"; "run"; "--rm";
       "-v"; path_str bids_root +:+ ":/data:ro";
       "-v"; "/tmp/mriqc_output:/out";
       "nipreps/mriqc:22.0.6"; "/data"; "/out"; "participant";
       "--participant_label"; "01";
       "-m"; "T1w"; "T2w"; "bold"].
Proof.
  assert ((EvRun (Stub.argv "01") false Stub.exit_0,
           Stub.reported_fs Stub.dataset "01")
            ∈ effects (run_ok plain Stub.used)) as Hin by seventh_effect.
  split; [reflexivity|]. split; [exact Hin|].
  exact (default_label_is_01 _ _ _ _ plain _ _ _ _ _ eq_refl Hin).
Defined.

(** C5 on the same request. *)
Lemma tool_argument_vector_witness :
  (EvRun (Stub.argv "01") false Stub.exit_0, Stub.reported_fs Stub.dataset "01")
    ∈ effects (run_ok plain Stub.used) ∧
  ∃ fs3 bids_root name,
    (EvExtractall "/tmp/mriqc_upload/bids_data.zip" UPLOAD_FOLDER, fs3)
      ∈ effects (run_ok plain Stub.used) ∧
    discovered_root fs3 = Some bids_root ∧
    bids_root = Path UPLOAD_FOLDER ++ [name] ∧
    dir_at fs3 bids_root = true ∧
    Stub.exec_ok (Stub.argv "01") fs3
      = inr (Stub.exit_0, Stub.reported_fs Stub.dataset "01") ∧
    false = false ∧
    Stub.argv "01" =
      ["docker"; "run"; "--rm";
       "-v"; path_str bids_root +:+ ":/data:ro";
       "-v"; "/tmp/mriqc_output:/out";
       "nipreps/mriqc:22.0.6"; "/data"; "/out"; "participant";
       "--participant_label";
       default "01" (multidict_get (form plain) "participant_label");
       "-m"; "T1w"; "T2w"; "bold"].
Proof.
  assert ((EvRun (Stub.argv "01") false Stub.exit_0,
           Stub.reported_fs Stub.dataset "01")
            ∈ effects (run_ok plain Stub.used)) as Hin by seventh_effect.
  split; [exact Hin|].
  exact (tool_argument_vector _ _ _ _ _ _ _ _ _ _ Hin).
Defined.

(** C9 on a label with a space, a semicolon and a slash. *)
Lemma label_is_one_argument_witness :
  (EvRun (Stub.argv "02; rm -rf /") false Stub.exit_0,
   Stub.reported_fs Stub.dataset "02; rm -rf /")
    ∈ effects (run_ok hostile Stub.used) ∧
  length (Stub.argv "02; rm -rf /") = 17%nat ∧
  Stub.argv "02; rm -rf /" !! 12%nat = Some "02; rm -rf /".
Proof.
  assert ((EvRun (Stub.argv "02; rm -rf /") false Stub.exit_0,
           Stub.reported_fs Stub.dataset "02; rm -rf /")
            ∈ effects (run_ok hostile Stub.used)) as Hin by seventh_effect.
  split; [exact Hin|].
  destruct (label_is_one_argument _ _ _ _ _ _ _ _ _ _ Hin) as (_ & Hlen & Hth & _).
  exact (conj Hlen Hth).
Defined.

(** C4 on a tool that exits 1 with ["boom"]. *)
Lemma tool_failure_reported_witness :
  (EvRun (Stub.argv "01") false Stub.exit_1, Stub.staged_fs Stub.dataset)
    ∈ effects (run_boom plain Stub.used) ∧
  returncode Stub.exit_1 ≠ 0%Z ∧
  outcome (run_boom plain Stub.used) =
    inr {| status := 500;
           payload := Json [("error", "MRIQC failed"); ("stderr", "boom")] |}.
Proof.
  assert ((EvRun (Stub.argv "01") false Stub.exit_1, Stub.staged_fs Stub.dataset)
            ∈ effects (run_boom plain Stub.used)) as Hin by seventh_effect.
  assert (returncode Stub.exit_1 ≠ 0%Z) as Hrc by (intros [=]).
  split; [exact Hin|]. split; [exact Hrc|].
  exact (proj1 (tool_failure_reported _ _ _ _ _ _ _ _ _ _ Hin Hrc)).
Defined.

(** What the children of the upload workspace are on the stand-ins'
    filesystems. *)
Lemma staged_fs_child es name :
  fs_lookup (Path UPLOAD_FOLDER ++ [name]) (Stub.staged_fs es) =
    Stub.extracted_upload es !! name.
Proof.
  change (Path UPLOAD_FOLDER) with ["tmp"; "mriqc_upload"].
  unfold Stub.staged_fs. by rewrite fs_lookup_child, ws_lookup_upload.
Qed.

(** C3 on an archive that holds one file and no directory. *)
Lemma no_directory_rejected_witness :
  let flat := Stub.request_for Stub.flat_dataset [] in
  (EvExtractall "/tmp/mriqc_upload/bids_data.zip" UPLOAD_FOLDER,
   Stub.staged_fs Stub.flat_dataset)
    ∈ effects (run_ok flat Stub.used) ∧
  outcome (run_ok flat Stub.used) =
    inr {| status := 400;
           payload := Json [("error", "No BIDS directory found after unzipping.")] |}.
Proof.
  intros flat.
  assert ((EvExtractall "/tmp/mriqc_upload/bids_data.zip" UPLOAD_FOLDER,
           Stub.staged_fs Stub.flat_dataset)
            ∈ effects (run_ok flat Stub.used)) as Hin.
  { vm_compute. do 5 apply list_elem_of_further. apply list_elem_of_here. }
  assert (forall name k,
            fs_lookup (Path UPLOAD_FOLDER ++ [name])
                      (Stub.staged_fs Stub.flat_dataset) = Some k ->
            is_Dir k = false) as Hflat.
  { intros name k. rewrite staged_fs_child.
    apply (map_Forall_lookup_1 (fun _ k => is_Dir k = false)).
    apply (bool_decide_unpack _). vm_compute. exact I. }
  split; [exact Hin|].
  exact (proj1 (no_directory_rejected _ _ _ _ _ _ _ _ _ Hin Hflat)).
Defined.

(** C6 on a filesystem that holds leftovers of an earlier request. *)
Lemma workspaces_reset_first_witness :
  workspace_free Stub.used ∧
  fs_lookup (Path OUTPUT_FOLDER) Stub.used
    = Some (Dir {[ "stale.html" := File [x00] ]}) ∧
  ∃ fa fb fc fd rest,
    effects (run_ok plain Stub.used) =
      (EvRmtree UPLOAD_FOLDER, fa) :: (EvRmtree OUTPUT_FOLDER, fb)
      :: (EvMakedirs UPLOAD_FOLDER, fc) :: (EvMakedirs OUTPUT_FOLDER, fd)
      :: rest ∧
    fs_lookup (Path UPLOAD_FOLDER) fd = Some (Dir ∅) ∧
    fs_lookup (Path OUTPUT_FOLDER) fd = Some (Dir ∅) ∧
    Forall (fun e => is_reset e.1 = false) rest.
Proof.
  assert (workspace_free Stub.used) as Hfree by (split; reflexivity).
  split; [exact Hfree|]. split; [reflexivity|].
  destruct (workspaces_reset_first Stub.zip_extractall Stub.zip_pack (Stub.at_time 0) Stub.exec_ok
              plain (Stub.upload_of Stub.dataset) Stub.used
              eq_refl eq_refl Hfree)
    as (fa & fb & fc & fd & rest & Heff & _ & _ & _ & Hup & Hout & Hrest).
  exists fa, fb, fc, fd, rest. exact (conj Heff (conj Hup (conj Hout Hrest))).
Defined.

(** C1 on a dataset with the one directory [ds]. *)
Lemma result_archive_round_trip_witness :
  Stub.zip_unpack (Stub.zip_pack (Stub.at_time 0) (Stub.report "01")) = Some (Stub.report "01") ∧
  Stub.exec_ok (Stub.argv "01") (Stub.staged_fs Stub.dataset) =
    inr (Stub.exit_0,
         fs_put (Path OUTPUT_FOLDER) (Dir (Stub.report "01"))
                (Stub.staged_fs Stub.dataset)) ∧
  ∃ data,
    outcome (run_ok plain Stub.used) =
      inr {| status := 200; payload := Attachment "mriqc_results.zip" data |} ∧
    Stub.zip_unpack data = Some (Stub.report "01") ∧
    fs_lookup (Path OUTPUT_FOLDER) (final_fs (run_ok plain Stub.used))
      = Some (Dir (Stub.report "01")).
Proof.
  assert (Stub.zip_unpack (Stub.zip_pack (Stub.at_time 0) (Stub.report "01"))
          = Some (Stub.report "01")) as Hrt by (vm_compute; reflexivity).
  assert (Stub.exec_ok (Stub.argv "01") (Stub.staged_fs Stub.dataset) =
          inr (Stub.exit_0,
               fs_put (Path OUTPUT_FOLDER) (Dir (Stub.report "01"))
                      (Stub.staged_fs Stub.dataset))) as Hexec
    by (vm_compute; reflexivity).
  assert (forall name' k,
            fs_lookup (Path UPLOAD_FOLDER ++ [name'])
                      (Stub.staged_fs Stub.dataset) = Some (Dir k) ->
            name' = "ds") as Honly.
  { intros name' k. rewrite staged_fs_child. intros Hk.
    apply (map_Forall_lookup_1 (fun name k => is_Dir k = true -> name = "ds")
                               _ _ _) with (2 := Hk); [|done].
    apply (bool_decide_unpack _). vm_compute. exact I. }
  split; [exact Hrt|]. split; [exact Hexec|].
  eapply (result_archive_round_trip Stub.zip_extractall Stub.zip_pack (Stub.at_time 0) Stub.exec_ok
            Stub.zip_unpack plain (Stub.upload_of Stub.dataset) Stub.used
            _ _ _ _ _ (Stub.staged_fs Stub.dataset) "ds" _ Stub.exit_0
            (Stub.report "01")).
  - reflexivity.
  - reflexivity.
  - repeat split; vm_compute; reflexivity.
  - vm_compute. reflexivity.
  - exact Honly.
  - exact Hexec.
  - reflexivity.
  - reflexivity.
  - exact Hrt.
Defined.

End Witnesses.

(** * Further properties on the stand-ins *)

(** Steps 2 to 4 on [Stub.used] for the dataset, and the input root
    found there. *)
Lemma dataset_staged :
  ∃ fa fb fc fd fe,
    staged Stub.zip_extractall (Stub.zip_pack (Stub.at_time 0) Stub.dataset) Stub.used
           fa fb fc fd fe (Stub.staged_fs Stub.dataset).
Proof.
  apply (staged_intro Stub.zip_extractall).
  - split; reflexivity.
  - vm_compute. reflexivity.
Qed.

Lemma dataset_root :
  discovered_root (Stub.staged_fs Stub.dataset)
    = Some (Path UPLOAD_FOLDER ++ ["ds"]).
Proof. vm_compute. reflexivity. Qed.

Lemma exec_ok_staged :
  Stub.exec_ok (Stub.argv "01") (Stub.staged_fs Stub.dataset)
    = inr (Stub.exit_0, Stub.reported_fs Stub.dataset "01").
Proof.
  unfold Stub.exec_ok, Stub.staged_fs, Stub.reported_fs.
  change (Path OUTPUT_FOLDER) with ["tmp"; "mriqc_output"].
  by rewrite ws_lookup_output, ws_put_output.
Qed.

(** The import on a machine with an empty [/tmp]. *)
Lemma module_init_free_witness :
  outcome (module_init Stub.fresh) = inr tt ∧
  workspace_free (final_fs (module_init Stub.fresh)) ∧
  dir_at (final_fs (module_init Stub.fresh)) (Path UPLOAD_FOLDER) = true ∧
  dir_at (final_fs (module_init Stub.fresh)) (Path OUTPUT_FOLDER) = true.
Proof.
  assert (outcome (module_init Stub.fresh) = inr tt) as Hok
    by (vm_compute; reflexivity).
  exact (conj Hok (module_init_free Stub.fresh Hok)).
Defined.

(** The import on a machine whose workspaces hold files. *)
Lemma module_init_keeps_witness :
  dir_at Stub.used (Path UPLOAD_FOLDER) = true ∧
  dir_at Stub.used (Path OUTPUT_FOLDER) = true ∧
  outcome (module_init Stub.used) = inr tt ∧
  final_fs (module_init Stub.used) = Stub.used.
Proof.
  assert (dir_at Stub.used (Path UPLOAD_FOLDER) = true) as Hup by reflexivity.
  assert (dir_at Stub.used (Path OUTPUT_FOLDER) = true) as Hout by reflexivity.
  exact (conj Hup (conj Hout (module_init_keeps Stub.used Hup Hout))).
Defined.

(** The paths stay free over a successful request. *)
Lemma run_mriqc_keeps_free_witness :
  workspace_free Stub.used ∧
  workspace_free
    (final_fs (run_mriqc Stub.zip_extractall Stub.zip_pack (Stub.at_time 0) Stub.exec_ok
                 (Stub.request_for Stub.dataset []) Stub.used)).
Proof.
  assert (workspace_free Stub.used) as Hfree by (split; reflexivity).
  exact (conj Hfree
           (run_mriqc_keeps_free Stub.zip_extractall Stub.zip_pack (Stub.at_time 0) Stub.exec_ok
              (Stub.request_for Stub.dataset []) Stub.used
              exec_ok_confined Hfree)).
Defined.

(** An extraction that fails after its first member. *)
Lemma corrupt_archive_raises_witness :
  let req := {| files := [("bids_zip", Stub.garbage)]; form := [] |} in
  let final :=
    final_fs (run_mriqc Stub.zip_bad_member Stub.zip_pack (Stub.at_time 0)
                Stub.exec_ok req Stub.used) in
  workspace_free Stub.used ∧
  outcome (run_mriqc Stub.zip_bad_member Stub.zip_pack (Stub.at_time 0)
             Stub.exec_ok req Stub.used)
    = inl BadZipFile ∧
  fs_lookup (Path UPLOAD_FOLDER) final
    = Some (Dir (<["a" := File [x61]]>
                   {[ "bids_data.zip" := File (stream Stub.garbage) ]})) ∧
  fs_lookup (Path OUTPUT_FOLDER) final = Some (Dir ∅).
Proof.
  intros req final.
  assert (workspace_free Stub.used) as Hfree by (split; reflexivity).
  destruct (corrupt_archive_raises Stub.zip_bad_member Stub.zip_pack
              (Stub.at_time 0) Stub.exec_ok req Stub.garbage Stub.used
              BadZipFile
              (<["a" := File [x61]]>
                 {[ "bids_data.zip" := File (stream Stub.garbage) ]})
              eq_refl eq_refl Hfree eq_refl)
    as (Hraised & Hup & Hout & _).
  exact (conj Hfree (conj Hraised (conj Hup Hout))).
Defined.

(** A machine without the runtime. *)
Lemma tool_not_started_raises_witness :
  Stub.exec_missing (Stub.argv "01") (Stub.staged_fs Stub.dataset)
    = inl FileNotFoundError ∧
  outcome (run_mriqc Stub.zip_extractall Stub.zip_pack (Stub.at_time 0) Stub.exec_missing
             (Stub.request_for Stub.dataset []) Stub.used)
    = inl FileNotFoundError.
Proof.
  split; [reflexivity|].
  destruct dataset_staged as (fa & fb & fc & fd & fe & Hst).
  exact (proj1 (tool_not_started_raises Stub.zip_extractall Stub.zip_pack
                  (Stub.at_time 0) Stub.exec_missing (Stub.request_for Stub.dataset [])
                  (Stub.upload_of Stub.dataset) Stub.used
                  fa fb fc fd fe (Stub.staged_fs Stub.dataset)
                  (Path UPLOAD_FOLDER ++ ["ds"]) FileNotFoundError
                  eq_refl eq_refl Hst dataset_root eq_refl)).
Defined.

(** The one run of a successful request. *)
Lemma tool_runs_once_witness :
  (EvRun (Stub.argv "01") false Stub.exit_0, Stub.reported_fs Stub.dataset "01")
    ∈ effects (run_mriqc Stub.zip_extractall Stub.zip_pack (Stub.at_time 0) Stub.exec_ok
                 (Stub.request_for Stub.dataset []) Stub.used) ∧
  ∃ data fa fb fc fd fe fs3 after,
    effects (run_mriqc Stub.zip_extractall Stub.zip_pack (Stub.at_time 0) Stub.exec_ok
               (Stub.request_for Stub.dataset []) Stub.used) =
      staging data fa fb fc fd fe fs3
        ++ (EvRun (Stub.argv "01") false Stub.exit_0,
            Stub.reported_fs Stub.dataset "01") :: after ∧
    (after = [] ∨
     ∃ fs5, after = [(EvMakeArchive "/tmp/mriqc_results" "zip" OUTPUT_FOLDER, fs5)]).
Proof.
  destruct dataset_staged as (fa & fb & fc & fd & fe & Hst).
  assert ((EvRun (Stub.argv "01") false Stub.exit_0,
           Stub.reported_fs Stub.dataset "01")
            ∈ effects (run_mriqc Stub.zip_extractall Stub.zip_pack (Stub.at_time 0) Stub.exec_ok
                         (Stub.request_for Stub.dataset []) Stub.used)) as Hin.
  { exact (staged_run_logged Stub.zip_extractall Stub.zip_pack (Stub.at_time 0) Stub.exec_ok
             (Stub.request_for Stub.dataset []) (Stub.upload_of Stub.dataset)
             Stub.used fa fb fc fd fe (Stub.staged_fs Stub.dataset)
             (Path UPLOAD_FOLDER ++ ["ds"]) Stub.exit_0
             (Stub.reported_fs Stub.dataset "01")
             eq_refl eq_refl Hst dataset_root exec_ok_staged). }
  exact (conj Hin (tool_runs_once _ _ _ _ _ _ _ _ _ _ Hin)).
Defined.

(** The answer to the request for the dataset on [Stub.used]. *)
Lemma dataset_answer :
  outcome (run_mriqc Stub.zip_extractall Stub.zip_pack (Stub.at_time 0) Stub.exec_ok
             (Stub.request_for Stub.dataset []) Stub.used)
    = inr {| status := 200;
             payload := Attachment "mriqc_results.zip"
                          (Stub.zip_pack (Stub.at_time 0) (Stub.report "01")) |}.
Proof. vm_compute. reflexivity. Qed.

(** The attachment of that answer. *)
Lemma attachment_is_packed_output_witness :
  ∃ args cp fs4,
    (EvRun args false cp, fs4)
      ∈ effects (run_mriqc Stub.zip_extractall Stub.zip_pack (Stub.at_time 0)
                   Stub.exec_ok (Stub.request_for Stub.dataset []) Stub.used) ∧
    returncode cp = 0%Z ∧
    Stub.zip_pack (Stub.at_time 0) (Stub.report "01")
      = Stub.zip_pack (Stub.at_time 0) (walk (Path OUTPUT_FOLDER) fs4) ∧
    "mriqc_results.zip" = "mriqc_results.zip" ∧
    fs_lookup (Path "/tmp/mriqc_results.zip")
      (final_fs (run_mriqc Stub.zip_extractall Stub.zip_pack (Stub.at_time 0)
                   Stub.exec_ok (Stub.request_for Stub.dataset []) Stub.used))
      = Some (File (Stub.zip_pack (Stub.at_time 0) (Stub.report "01"))).
Proof.
  exact (attachment_is_packed_output Stub.zip_extractall Stub.zip_pack
           (Stub.at_time 0) Stub.exec_ok _ _ _ _ dataset_answer).
Defined.

(** The shape of that answer. *)
Lemma response_shapes_witness :
  let r := {| status := 200;
              payload := Attachment "mriqc_results.zip"
                           (Stub.zip_pack (Stub.at_time 0) (Stub.report "01")) |} in
  r = {| status := 400; payload := Json [("error", "No BIDS zip provided")] |} ∨
  r = {| status := 400;
         payload := Json [("error", "No BIDS directory found after unzipping.")] |} ∨
  (∃ err, r = {| status := 500;
                 payload := Json [("error", "MRIQC failed"); ("stderr", err)] |}) ∨
  (∃ data, r = {| status := 200;
                  payload := Attachment "mriqc_results.zip" data |}).
Proof.
  exact (response_shapes Stub.zip_extractall Stub.zip_pack (Stub.at_time 0)
           Stub.exec_ok _ _ _ dataset_answer).
Defined.

(** What a request leaves alone on that machine. *)
Lemma run_mriqc_frame_witness :
  confined Stub.exec_ok ∧
  outside_kept Stub.shared
    (final_fs (run_mriqc Stub.zip_extractall Stub.zip_pack (Stub.at_time 0) Stub.exec_ok
                 (Stub.request_for Stub.dataset []) Stub.shared)).
Proof.
  exact (conj exec_ok_confined
           (run_mriqc_frame Stub.zip_extractall Stub.zip_pack (Stub.at_time 0) Stub.exec_ok
              (Stub.request_for Stub.dataset []) Stub.shared exec_ok_confined)).
Defined.

(** * The same request, twice, on the stand-ins *)

(** The extraction of the first request, the one directory it leaves,
    and what the output workspace holds when the request is done. *)
Lemma dataset_extracted :
  (EvExtractall "/tmp/mriqc_upload/bids_data.zip" UPLOAD_FOLDER,
   Stub.staged_fs Stub.dataset)
    ∈ effects (run_mriqc Stub.zip_extractall Stub.zip_pack (Stub.at_time 0)
                 Stub.exec_ok (Stub.request_for Stub.dataset []) Stub.used).
Proof.
  destruct dataset_staged as (fa & fb & fc & fd & fe & Hst).
  rewrite (run_mriqc_staged Stub.zip_extractall Stub.zip_pack (Stub.at_time 0)
             Stub.exec_ok (Stub.request_for Stub.dataset [])
             (Stub.upload_of Stub.dataset) Stub.used fa fb fc fd fe
             (Stub.staged_fs Stub.dataset) eq_refl eq_refl Hst).
  cbn zeta. rewrite dataset_root.
  destruct (Stub.exec_ok _ _) as [e|[cp fs4]]; [|destruct (decide _)];
    unfold effects, staging; cbn [snd app];
    do 5 apply list_elem_of_further; apply list_elem_of_here.
Qed.

Lemma dataset_one_directory a b ka kb :
  fs_lookup (Path UPLOAD_FOLDER ++ [a]) (Stub.staged_fs Stub.dataset)
    = Some (Dir ka) ->
  fs_lookup (Path UPLOAD_FOLDER ++ [b]) (Stub.staged_fs Stub.dataset)
    = Some (Dir kb) ->
  a = b.
Proof.
  assert (forall name k,
            fs_lookup (Path UPLOAD_FOLDER ++ [name])
                      (Stub.staged_fs Stub.dataset) = Some (Dir k) ->
            name = "ds") as Honly.
  { intros name k. rewrite staged_fs_child. intros Hk.
    apply (map_Forall_lookup_1 (fun name k => is_Dir k = true -> name = "ds")
                               _ _ _) with (2 := Hk); [|done].
    apply (bool_decide_unpack _). vm_compute. exact I. }
  intros Ha Hb. by rewrite (Honly _ _ Ha), (Honly _ _ Hb).
Qed.

Lemma dataset_output :
  fs_lookup (Path OUTPUT_FOLDER)
    (final_fs (run_mriqc Stub.zip_extractall Stub.zip_pack (Stub.at_time 0)
                 Stub.exec_ok (Stub.request_for Stub.dataset []) Stub.used))
    = Some (Dir (Stub.report "01")).
Proof. vm_compute. reflexivity. Qed.

(** C8, amended, on the request for the dataset, issued on [Stub.used]
    and again two seconds later. *)
Lemma repeated_request_same_files_witness :
  let first :=
    run_mriqc Stub.zip_extractall Stub.zip_pack (Stub.at_time 0) Stub.exec_ok
      (Stub.request_for Stub.dataset []) Stub.used in
  let again :=
    run_mriqc Stub.zip_extractall Stub.zip_pack (Stub.at_time 2) Stub.exec_ok
      (Stub.request_for Stub.dataset []) (final_fs first) in
  ∃ data',
    outcome again =
      inr {| status := 200; payload := Attachment "mriqc_results.zip" data' |} ∧
    Stub.zip_unpack (Stub.zip_pack (Stub.at_time 0) (Stub.report "01"))
      = Some (Stub.report "01") ∧
    Stub.zip_unpack data' = Some (Stub.report "01") ∧
    Stub.zip_pack (Stub.at_time 0) (Stub.report "01")
      = Stub.zip_pack (Stub.at_time 0) (Stub.report "01") ∧
    data' = Stub.zip_pack (Stub.at_time 2) (Stub.report "01") ∧
    fs_lookup (Path OUTPUT_FOLDER) (final_fs again) = Some (Dir (Stub.report "01")).
Proof.
  assert (Stub.zip_unpack (Stub.zip_pack (Stub.at_time 0) (Stub.report "01"))
          = Some (Stub.report "01")) as Hrt by (vm_compute; reflexivity).
  assert (Stub.zip_unpack (Stub.zip_pack (Stub.at_time 2) (Stub.report "01"))
          = Some (Stub.report "01")) as Hrt' by (vm_compute; reflexivity).
  exact (repeated_request_same_files Stub.zip_extractall Stub.zip_pack
           Stub.exec_ok (Stub.at_time 0) (Stub.at_time 2) Stub.zip_unpack
           (Stub.request_for Stub.dataset []) Stub.used
           "/tmp/mriqc_upload/bids_data.zip" UPLOAD_FOLDER
           (Stub.staged_fs Stub.dataset) "mriqc_results.zip"
           (Stub.zip_pack (Stub.at_time 0) (Stub.report "01"))
           (Stub.report "01")
           exec_ok_confined exec_ok_hermetic dataset_answer dataset_extracted
           dataset_one_directory dataset_output Hrt Hrt').
Defined.

(** C8 as stated fails: the tool is confined and deterministic and both
    requests are answered 200, but the second archive is not the first,
    byte for byte, because its members are two seconds younger. *)
Lemma repeated_request_bytes_differ :
  let first :=
    run_mriqc Stub.zip_extractall Stub.zip_pack (Stub.at_time 0) Stub.exec_ok
      (Stub.request_for Stub.dataset []) Stub.used in
  let again :=
    run_mriqc Stub.zip_extractall Stub.zip_pack (Stub.at_time 2) Stub.exec_ok
      (Stub.request_for Stub.dataset []) (final_fs first) in
  confined Stub.exec_ok ∧
  hermetic Stub.exec_ok ∧
  ∃ data data',
    outcome first =
      inr {| status := 200; payload := Attachment "mriqc_results.zip" data |} ∧
    outcome again =
      inr {| status := 200; payload := Attachment "mriqc_results.zip" data' |} ∧
    data ≠ data'.
Proof.
  intros first again.
  split; [exact exec_ok_confined|]. split; [exact exec_ok_hermetic|].
  exists (Stub.zip_pack (Stub.at_time 0) (Stub.report "01")),
         (Stub.zip_pack (Stub.at_time 2) (Stub.report "01")).
  split; [exact dataset_answer|]. split; [vm_compute; reflexivity|].
  vm_compute. intros [=].
Qed.
